(** * Pose-Detector: the pose classifier and the frame loop of [pose_detector.py]

    The development embeds [detect_pose] (the ordered cascade of geometric
    tests over ten body joints) and the scheduling skeleton of
    [update_frame], and proves the properties stated about them.

    Coordinates are rationals ([Q]); every binary64 number is one.  The
    tests on the arms compare the difference of two coordinates with the
    decimal value of [0.1], [0.3] and [0.05].  The averages of shoulders,
    hips and knees, the difference of two averages, the difference of the two
    hips and the literal [0.2] are rounded to binary64 ([round64]) as the
    program computes them.  Coordinates are single-precision numbers, far
    from the overflow threshold of binary64, so rounding has no upper
    bound here. *)

From Stdlib Require Import QArith Qabs Qround Qpower Qreduction ZArith.
From Stdlib Require Import Lia Lqa List String Bool.
Import ListNotations.

Local Open Scope Q_scope.

(** ** Comparisons on rationals, as booleans *)

Definition Qltb (a b : Q) : bool := negb (Qle_bool b a).
Definition Qgtb (a b : Q) : bool := Qltb b a.
Definition Qleb (a b : Q) : bool := Qle_bool a b.

Infix "<?" := Qltb (at level 70, no associativity) : Q_scope.
Infix ">?" := Qgtb (at level 70, no associativity) : Q_scope.
Infix "<=?" := Qleb (at level 70, no associativity) : Q_scope.

(** ** Rounding to binary64

    Round to nearest, ties to even, with 53 significant bits and the
    subnormal spacing [2 ^ -1074] at the bottom of the range. *)

(** The exponent [e] of a positive rational: [2 ^ e <= q < 2 ^ (e + 1)]. *)
Definition binade (q : Q) : Z :=
  let c := (Z.log2 (Qnum q) - Z.log2 (Zpos (Qden q)))%Z in
  if q <? 2 ^ c then (c - 1)%Z else c.

(** The nearest integer, the even one of two nearest. *)
Definition round_half_even (s : Q) : Z :=
  let f := Qfloor s in
  match Qcompare (s - inject_Z f) (1 # 2) with
  | Lt => f
  | Gt => (f + 1)%Z
  | Eq => if Z.even f then f else (f + 1)%Z
  end.

(** The exponent of the spacing of binary64 numbers around [q]. *)
Definition ulp_exponent (q : Q) : Z := Z.max (binade q - 52) (-1074).

Definition round_positive (q : Q) : Q :=
  inject_Z (round_half_even (q / 2 ^ ulp_exponent q)) * 2 ^ ulp_exponent q.

Definition round64 (q : Q) : Q :=
  let r := Qred q in
  match Qcompare r 0 with
  | Eq => 0
  | Gt => round_positive r
  | Lt => - round_positive (- r)
  end.

(** ** Landmarks

    A landmark of the pose model: normalized image coordinates, a depth and
    a visibility score.  Only [x] and [y] are read by the classifier. *)

Record NormalizedLandmark : Type := mkLandmark
  { x : Q; y : Q; z : Q; visibility : Q }.

(** The joints [detect_pose] reads, named as in [mp_pose.PoseLandmark]. *)

Inductive PoseLandmark : Type :=
  | LEFT_WRIST | RIGHT_WRIST
  | LEFT_ELBOW | RIGHT_ELBOW
  | LEFT_SHOULDER | RIGHT_SHOULDER
  | LEFT_HIP | RIGHT_HIP
  | LEFT_KNEE | RIGHT_KNEE.

Definition all_joints : list PoseLandmark :=
  [LEFT_WRIST; RIGHT_WRIST; LEFT_ELBOW; RIGHT_ELBOW; LEFT_SHOULDER;
   RIGHT_SHOULDER; LEFT_HIP; RIGHT_HIP; LEFT_KNEE; RIGHT_KNEE].

(** The positions the pose model gives these joints in its landmark list
    (the enumeration lives in the MediaPipe library, not in the repository;
    the classifier is parametric in it, this is the instance used to run
    it). *)

Definition mediapipe_index (j : PoseLandmark) : nat :=
  match j with
  | LEFT_SHOULDER => 11 | RIGHT_SHOULDER => 12
  | LEFT_ELBOW => 13 | RIGHT_ELBOW => 14
  | LEFT_WRIST => 15 | RIGHT_WRIST => 16
  | LEFT_HIP => 23 | RIGHT_HIP => 24
  | LEFT_KNEE => 25 | RIGHT_KNEE => 26
  end%nat.

(** ** Results of fallible code

    Indexing the landmark list out of range raises [IndexError]; drawing a
    connection to a landmark that the list does not hold raises
    [ValueError]. *)

Inductive result (A : Type) : Type :=
  | Ok (a : A)
  | IndexError
  | ValueError.

Arguments Ok {A} a.
Arguments IndexError {A}.
Arguments ValueError {A}.

Definition bind {A B : Type} (r : result A) (k : A -> result B) : result B :=
  match r with
  | Ok a => k a
  | IndexError => IndexError
  | ValueError => ValueError
  end.

Notation "v <- r ;; k" := (bind r (fun v => k))
  (at level 61, r at next level, right associativity).

(** ** The local variables of [detect_pose] *)

Record Joints : Type := mkJoints
  { left_wrist : NormalizedLandmark;
    right_wrist : NormalizedLandmark;
    left_elbow : NormalizedLandmark;
    right_elbow : NormalizedLandmark;
    left_shoulder : NormalizedLandmark;
    right_shoulder : NormalizedLandmark;
    left_hip : NormalizedLandmark;
    right_hip : NormalizedLandmark;
    left_knee : NormalizedLandmark;
    right_knee : NormalizedLandmark }.

(** [(l + r) / 2] in binary64: the sum is rounded, then the quotient. *)
Definition avg_shoulder_y (j : Joints) : Q :=
  round64 (round64 (y (left_shoulder j) + y (right_shoulder j)) / 2).
Definition avg_hip_y (j : Joints) : Q :=
  round64 (round64 (y (left_hip j) + y (right_hip j)) / 2).
Definition avg_knee_y (j : Joints) : Q :=
  round64 (round64 (y (left_knee j) + y (right_knee j)) / 2).

(** ** The ten tests of the cascade, in source order

    Each definition is the condition of one [if] of [detect_pose]; Python's
    [not a < b] is [not (a < b)]. *)

Definition is_t_pose (j : Joints) : bool :=
  (Qabs (y (left_wrist j) - y (left_elbow j)) <? 0.1)
  && (Qabs (y (right_wrist j) - y (right_elbow j)) <? 0.1)
  && (Qabs (y (left_wrist j) - y (left_shoulder j)) <? 0.1)
  && (Qabs (y (right_wrist j) - y (right_shoulder j)) <? 0.1).

Definition is_heart (j : Joints) : bool :=
  (Qabs (x (left_wrist j) - x (right_wrist j)) <? 0.3)
  && (y (left_wrist j) <? y (left_elbow j))
  && (y (right_wrist j) <? y (right_elbow j))
  && (y (left_wrist j) <? y (left_shoulder j))
  && (y (right_wrist j) <? y (right_shoulder j))
  && negb (Qabs (x (left_wrist j) - x (left_elbow j)) <? 0.1)
  && negb (Qabs (x (right_wrist j) - x (right_elbow j)) <? 0.1).

Definition is_hands_up (j : Joints) : bool :=
  (y (left_wrist j) <? y (left_elbow j))
  && (y (right_wrist j) <? y (right_elbow j))
  && (y (left_wrist j) <? y (left_shoulder j))
  && (y (right_wrist j) <? y (right_shoulder j)).

Definition is_waving (j : Joints) : bool :=
  ((y (left_wrist j) <? y (left_elbow j))
   || (y (right_wrist j) <? y (right_elbow j)))
  && ((y (left_wrist j) <? y (left_shoulder j))
      || (y (right_wrist j) <? y (right_shoulder j))).

Definition is_folded_hands (j : Joints) : bool :=
  (Qabs (x (left_wrist j) - x (right_wrist j)) <? 0.05)
  && (y (left_wrist j) <? y (left_elbow j))
  && (y (right_wrist j) <? y (right_elbow j))
  && (y (left_wrist j) >? y (left_shoulder j)).

Definition is_arms_crossed (j : Joints) : bool :=
  (x (left_wrist j) >? x (right_shoulder j))
  && (x (right_wrist j) <? x (left_shoulder j))
  && (y (left_elbow j) >? y (left_wrist j))
  && (y (right_elbow j) >? y (right_wrist j)).

Definition is_bending_down (j : Joints) : bool :=
  (Qabs (round64 (avg_shoulder_y j - avg_hip_y j)) <=? round64 0.2)
  && (avg_hip_y j <? avg_knee_y j).

Definition is_sitting (j : Joints) : bool :=
  (avg_hip_y j >? avg_knee_y j)
  && (Qabs (round64 (y (left_hip j) - y (right_hip j))) <? 0.5).

Definition is_standing (j : Joints) : bool :=
  (Qabs (y (left_wrist j) - y (left_hip j)) <? 0.1)
  && (Qabs (y (right_wrist j) - y (right_hip j)) <? 0.1)
  && (x (left_elbow j) <? x (left_wrist j))
  && (x (right_elbow j) >? x (right_wrist j)).

Definition is_hands_on_hips (j : Joints) : bool :=
  (Qabs (round64 (avg_shoulder_y j - avg_hip_y j)) >? round64 0.2)
  && (avg_hip_y j <? avg_knee_y j).

(** ** The cascade: the first test that holds decides the returned text

    The chain of [if ...: return "..."] statements, ending in
    [return "Unknown Pose"]. *)

Definition cascade (j : Joints) : string :=
  if is_t_pose j then "T-Pose"
  else if is_heart j then "Heart"
  else if is_hands_up j then "Hands Up"
  else if is_waving j then "Waving"
  else if is_folded_hands j then "Folded Hands"
  else if is_arms_crossed j then "Arms Crossed"
  else if is_bending_down j then "Bending Down"
  else if is_sitting j then "Sitting"
  else if is_standing j then "Standing"
  else if is_hands_on_hips j then "Hands on Hips"
  else "Unknown Pose".

Section Classifier.

(** The position of each joint in the landmark list. *)
Variable index : PoseLandmark -> nat.

(** [landmarks.landmark[mp_pose.PoseLandmark.J]] *)
Definition landmark (landmarks : list NormalizedLandmark) (j : PoseLandmark)
  : result NormalizedLandmark :=
  match nth_error landmarks (index j) with
  | Some l => Ok l
  | None => IndexError
  end.

(** The ten lookups at the head of [detect_pose], in source order; the
first one out of range raises. *)
Definition read_joints (landmarks : list NormalizedLandmark) : result Joints :=
  lw <- landmark landmarks LEFT_WRIST ;;
  rw <- landmark landmarks RIGHT_WRIST ;;
  le <- landmark landmarks LEFT_ELBOW ;;
  re <- landmark landmarks RIGHT_ELBOW ;;
  ls <- landmark landmarks LEFT_SHOULDER ;;
  rs <- landmark landmarks RIGHT_SHOULDER ;;
  lh <- landmark landmarks LEFT_HIP ;;
  rh <- landmark landmarks RIGHT_HIP ;;
  lk <- landmark landmarks LEFT_KNEE ;;
  rk <- landmark landmarks RIGHT_KNEE ;;
  Ok (mkJoints lw rw le re ls rs lh rh lk rk).

Definition detect_pose (landmarks : list NormalizedLandmark) : result string :=
  j <- read_joints landmarks ;;
  Ok (cascade j).

End Classifier.

(** ** Pose labels

    The closed enumeration of labels, and the text [detect_pose] returns for
    each of them. *)

Inductive PoseLabel : Type :=
  | TPose | Heart | HandsUp | Waving | FoldedHands | ArmsCrossed
  | BendingDown | Sitting | Standing | HandsOnHips | Unknown.

Definition label_text (p : PoseLabel) : string :=
  match p with
  | TPose => "T-Pose"
  | Heart => "Heart"
  | HandsUp => "Hands Up"
  | Waving => "Waving"
  | FoldedHands => "Folded Hands"
  | ArmsCrossed => "Arms Crossed"
  | BendingDown => "Bending Down"
  | Sitting => "Sitting"
  | Standing => "Standing"
  | HandsOnHips => "Hands on Hips"
  | Unknown => "Unknown Pose"
  end.

Definition pose_labels : list PoseLabel :=
  [TPose; Heart; HandsUp; Waving; FoldedHands; ArmsCrossed;
   BendingDown; Sitting; Standing; HandsOnHips; Unknown].

(** ** The conditions of the specification, as propositions

    Written from the wording of the specification (section 4.1), to be
    compared with the boolean tests of the source above. *)

Module Spec.

(** The arithmetic means of the specification. *)
Definition avg_shoulder_y (j : Joints) : Q :=
  (y (left_shoulder j) + y (right_shoulder j)) / 2.
Definition avg_hip_y (j : Joints) : Q :=
  (y (left_hip j) + y (right_hip j)) / 2.
Definition avg_knee_y (j : Joints) : Q :=
  (y (left_knee j) + y (right_knee j)) / 2.

Definition t_pose (j : Joints) : Prop :=
  Qabs (y (left_wrist j) - y (left_elbow j)) < 0.1
  /\ Qabs (y (right_wrist j) - y (right_elbow j)) < 0.1
  /\ Qabs (y (left_wrist j) - y (left_shoulder j)) < 0.1
  /\ Qabs (y (right_wrist j) - y (right_shoulder j)) < 0.1.

(** Both wrists above their elbows and above their shoulders. *)
Definition wrists_raised (j : Joints) : Prop :=
  y (left_wrist j) < y (left_elbow j)
  /\ y (right_wrist j) < y (right_elbow j)
  /\ y (left_wrist j) < y (left_shoulder j)
  /\ y (right_wrist j) < y (right_shoulder j).

Definition wrists_close (j : Joints) : Prop :=
  Qabs (x (left_wrist j) - x (right_wrist j)) < 0.3.

Definition left_wrist_over_elbow (j : Joints) : Prop :=
  Qabs (x (left_wrist j) - x (left_elbow j)) < 0.1.

Definition right_wrist_over_elbow (j : Joints) : Prop :=
  Qabs (x (right_wrist j) - x (right_elbow j)) < 0.1.

(** Heart, with the negation over the conjunction "each wrist nearly
    vertically aligned with its own elbow". *)
Definition heart (j : Joints) : Prop :=
  wrists_close j /\ wrists_raised j
  /\ ~ (left_wrist_over_elbow j /\ right_wrist_over_elbow j).

Definition hands_up (j : Joints) : Prop := wrists_raised j.

Definition waving (j : Joints) : Prop :=
  (y (left_wrist j) < y (left_elbow j)
   \/ y (right_wrist j) < y (right_elbow j))
  /\ (y (left_wrist j) < y (left_shoulder j)
      \/ y (right_wrist j) < y (right_shoulder j)).

Definition folded_hands (j : Joints) : Prop :=
  Qabs (x (left_wrist j) - x (right_wrist j)) < 0.05
  /\ y (left_wrist j) < y (left_elbow j)
  /\ y (right_wrist j) < y (right_elbow j)
  /\ y (left_wrist j) > y (left_shoulder j).

Definition arms_crossed (j : Joints) : Prop :=
  x (left_wrist j) > x (right_shoulder j)
  /\ x (right_wrist j) < x (left_shoulder j)
  /\ y (left_elbow j) > y (left_wrist j)
  /\ y (right_elbow j) > y (right_wrist j).

Definition bending_down (j : Joints) : Prop :=
  Qabs (avg_shoulder_y j - avg_hip_y j) <= 0.2
  /\ avg_hip_y j < avg_knee_y j.

Definition sitting (j : Joints) : Prop :=
  avg_hip_y j > avg_knee_y j
  /\ Qabs (y (left_hip j) - y (right_hip j)) < 0.5.

Definition standing (j : Joints) : Prop :=
  Qabs (y (left_wrist j) - y (left_hip j)) < 0.1
  /\ Qabs (y (right_wrist j) - y (right_hip j)) < 0.1
  /\ x (left_elbow j) < x (left_wrist j)
  /\ x (right_elbow j) > x (right_wrist j).

Definition hands_on_hips (j : Joints) : Prop :=
  Qabs (avg_shoulder_y j - avg_hip_y j) > 0.2
  /\ avg_hip_y j < avg_knee_y j.

(** None of the ten conditions holds. *)
Definition none_matches (j : Joints) : Prop :=
  ~ t_pose j /\ ~ heart j /\ ~ hands_up j /\ ~ waving j
  /\ ~ folded_hands j /\ ~ arms_crossed j /\ ~ bending_down j
  /\ ~ sitting j /\ ~ standing j /\ ~ hands_on_hips j.

(** The four vertical deltas of the T-Pose condition. *)
Definition arm_deltas (j : Joints) : list Q :=
  [Qabs (y (left_wrist j) - y (left_elbow j));
   Qabs (y (right_wrist j) - y (right_elbow j));
   Qabs (y (left_wrist j) - y (left_shoulder j));
   Qabs (y (right_wrist j) - y (right_shoulder j))].

(** Wrists below their elbows and elbows below their shoulders, each by
    more than [m]; shoulders above the hips by more than [m]. *)
Definition arms_hanging (m : Q) (j : Joints) : Prop :=
  y (left_wrist j) - y (left_elbow j) > m
  /\ y (right_wrist j) - y (right_elbow j) > m
  /\ y (left_elbow j) - y (left_shoulder j) > m
  /\ y (right_elbow j) - y (right_shoulder j) > m
  /\ avg_hip_y j - avg_shoulder_y j > m.

(** The neutral landmark set of the specification: hanging arms, and hips
    above the knees by more than [m]. *)
Definition neutral (m : Q) (j : Joints) : Prop :=
  arms_hanging m j /\ avg_knee_y j - avg_hip_y j > m.

(** Hanging arms, with the hips level with the knees. *)
Definition neutral_level (m : Q) (j : Joints) : Prop :=
  arms_hanging m j /\ avg_hip_y j == avg_knee_y j.

End Spec.

(** ** The tests on hips, knees and shoulders, on the computed values

    The conditions of Bending Down, Sitting and Hands on Hips over the
    averages and differences the program computes. *)

Module Computed.

Definition bending_down (j : Joints) : Prop :=
  Qabs (round64 (avg_shoulder_y j - avg_hip_y j)) <= round64 0.2
  /\ avg_hip_y j < avg_knee_y j.

Definition sitting (j : Joints) : Prop :=
  avg_hip_y j > avg_knee_y j
  /\ Qabs (round64 (y (left_hip j) - y (right_hip j))) < 0.5.

Definition hands_on_hips (j : Joints) : Prop :=
  Qabs (round64 (avg_shoulder_y j - avg_hip_y j)) > round64 0.2
  /\ avg_hip_y j < avg_knee_y j.

End Computed.

(** ** Building concrete landmark lists *)

Definition pt (a b : Q) : NormalizedLandmark := mkLandmark a b 0 1.

Definition joint_of (j : Joints) (k : PoseLandmark) : NormalizedLandmark :=
  match k with
  | LEFT_WRIST => left_wrist j | RIGHT_WRIST => right_wrist j
  | LEFT_ELBOW => left_elbow j | RIGHT_ELBOW => right_elbow j
  | LEFT_SHOULDER => left_shoulder j | RIGHT_SHOULDER => right_shoulder j
  | LEFT_HIP => left_hip j | RIGHT_HIP => right_hip j
  | LEFT_KNEE => left_knee j | RIGHT_KNEE => right_knee j
  end.

(** The 33 landmarks of a detection whose ten classified joints are those of
    [j]; the other 23 landmarks are [other]. *)
Definition landmarks_of (other : NormalizedLandmark) (j : Joints)
  : list NormalizedLandmark :=
  map (fun i =>
         match find (fun k => Nat.eqb (mediapipe_index k) i) all_joints with
         | Some k => joint_of j k
         | None => other
         end)
      (seq 0 33).

(** The label whose text the cascade returns. *)
Definition first_match (j : Joints) : PoseLabel :=
  if is_t_pose j then TPose
  else if is_heart j then Heart
  else if is_hands_up j then HandsUp
  else if is_waving j then Waving
  else if is_folded_hands j then FoldedHands
  else if is_arms_crossed j then ArmsCrossed
  else if is_bending_down j then BendingDown
  else if is_sitting j then Sitting
  else if is_standing j then Standing
  else if is_hands_on_hips j then HandsOnHips
  else Unknown.

(** Two landmarks with the same image coordinates. *)
Definition same_xy (a b : NormalizedLandmark) : Prop :=
  x a == x b /\ y a == y b.

(** ** The frame loop

    [update_frame] is a timer callback: it reads one frame, and when the read
    succeeds it classifies the detected landmarks, draws the label, shows the
    frame and registers itself again with [label.after(10, update_frame)].
    What the capture device and the pose model deliver on one call is the
    input of the call; what the call does to the window is a list of
    events.  Mirroring, colour conversion and the scaling of the frame to the
    window work on pixels and are represented by the single event
    [Configure], the call of [label.configure] that shows the frame.

    [mp_drawing.draw_landmarks] is called with [mp_pose.POSE_CONNECTIONS],
    which joins landmarks numbered up to 32; it raises [ValueError] when an
    end of a connection is not a position of the landmark list. *)

Record Tick : Type := mkTick
  { ret : bool;                                         (* cap.read() succeeded *)
    pose_landmarks : option (list NormalizedLandmark)   (* results.pose_landmarks *) }.

Inductive Color : Type := White | Black.

Inductive Event : Type :=
  | DrawLandmarks
  | PutText (text : string) (org : Z * Z) (color : Color) (thickness : Z)
  | Configure
  | After (ms : nat).

Definition text_position : Z * Z := (10, 30)%Z.
Definition font_thickness : Z := 2%Z.

(** [for i in range(3): cv2.putText(frame, pose_type, (10 - i, 30 - i), ...,
    border_color, font_thickness + i, ...)] followed by the fill pass. *)
Definition outlined_text (pose_type : string) : list Event :=
  map (fun i : Z =>
         PutText pose_type (fst text_position - i, snd text_position - i)%Z
                 Black (font_thickness + i)%Z)
      [0; 1; 2]%Z
  ++ [PutText pose_type text_position White font_thickness].

(** The number of landmarks [POSE_CONNECTIONS] refers to. *)
Definition connected_landmarks : nat := 33.

Definition draw_landmarks (landmarks : list NormalizedLandmark)
  : result (list Event) :=
  if (connected_landmarks <=? List.length landmarks)%nat
  then Ok [DrawLandmarks]
  else ValueError.

Section FrameLoop.

Variable index : PoseLandmark -> nat.

Definition update_frame (t : Tick) : result (list Event) :=
  if negb (ret t) then Ok []
  else
    overlay <- match pose_landmarks t with
               | Some landmarks =>
                   drawn <- draw_landmarks landmarks ;;
                   pose_type <- detect_pose index landmarks ;;
                   Ok (drawn ++ outlined_text pose_type)
               | None => Ok []
               end ;;
    Ok (overlay ++ [Configure; After 10]).

(** A call leaves a timer pending when it reached [label.after]. *)
Definition is_after (e : Event) : bool :=
  match e with After _ => true | _ => false end.

Definition reschedules (r : result (list Event)) : bool :=
  match r with
  | Ok events => existsb is_after events
  | IndexError => false
  | ValueError => false
  end.

(** The calls made by the program on the successive inputs [ticks]: the
    first call is the direct one, every later call is the timer callback
    registered by the call before it.  With no timer pending nothing calls
    [update_frame] again. *)
Fixpoint run (ticks : list Tick) : list (result (list Event)) :=
  match ticks with
  | [] => []
  | t :: rest =>
      let r := update_frame t in
      r :: (if reschedules r then run rest else [])
  end.

End FrameLoop.

(** ** Concrete landmark sets *)

(** Joints given by the height of each pair (wrists, elbows, shoulders,
    hips, knees), all on the vertical line [x = 0.5]. *)
Definition upright (wrist elbow shoulder hip knee : Q) : Joints :=
  mkJoints (pt 0.5 wrist) (pt 0.5 wrist) (pt 0.5 elbow) (pt 0.5 elbow)
           (pt 0.5 shoulder) (pt 0.5 shoulder) (pt 0.5 hip) (pt 0.5 hip)
           (pt 0.5 knee) (pt 0.5 knee).

(** Every joint at (0.5, 0.5). *)
Definition still_joints : Joints := upright 0.5 0.5 0.5 0.5 0.5.

(** Arms level within the tolerance and both wrists above elbows and
    shoulders. *)
Definition level_raised_joints : Joints := upright 0.45 0.5 0.5 0.7 0.9.

(** Arms hanging, hips level with the knees. *)
Definition fallback_joints : Joints := upright 0.8 0.4 0.1 0.5 0.5.

(** Arms hanging, shoulders far above hips, hips far above knees. *)
Definition neutral_joints : Joints := upright 0.7 0.4 0.1 0.5 0.9.

(** Shoulders close to the hips, hips above the knees. *)
Definition bent_joints : Joints := upright 0.7 0.55 0.4 0.5 0.8.

(** Both wrists raised and close together; the left wrist is over its elbow,
    the right wrist is not. *)
Definition one_sided_joints : Joints :=
  mkJoints (pt 0.5 0.2) (pt 0.4 0.2) (pt 0.55 0.5) (pt 0.2 0.5)
           (pt 0.6 0.4) (pt 0.3 0.4) (pt 0.55 0.7) (pt 0.35 0.7)
           (pt 0.55 0.9) (pt 0.35 0.9).

(** Both wrists raised, close together and away from their elbows. *)
Definition heart_joints : Joints :=
  mkJoints (pt 0.5 0.2) (pt 0.4 0.2) (pt 0.7 0.5) (pt 0.2 0.5)
           (pt 0.6 0.4) (pt 0.3 0.4) (pt 0.55 0.7) (pt 0.35 0.7)
           (pt 0.55 0.9) (pt 0.35 0.9).

(** All four vertical deltas of the arms equal to 0.0999, and to 0.1. *)
Definition inside_tolerance_joints : Joints := upright 0.5 0.5999 0.5999 0.8 0.9.
Definition on_tolerance_joints : Joints := upright 0.5 0.6 0.6 0.8 0.9.

(** The same joints as [bent_joints] with other depths and visibilities. *)
Definition hidden (l : NormalizedLandmark) : NormalizedLandmark :=
  mkLandmark (x l) (y l) 0.25 0.

Definition bent_joints_hidden : Joints :=
  mkJoints (hidden (left_wrist bent_joints)) (hidden (right_wrist bent_joints))
           (hidden (left_elbow bent_joints)) (hidden (right_elbow bent_joints))
           (hidden (left_shoulder bent_joints)) (hidden (right_shoulder bent_joints))
           (hidden (left_hip bent_joints)) (hidden (right_hip bent_joints))
           (hidden (left_knee bent_joints)) (hidden (right_knee bent_joints)).

(** A failed read, and a successful read with a detection. *)
Definition failed_tick : Tick := mkTick false None.
Definition good_tick : Tick :=
  mkTick true (Some (landmarks_of (pt 0 0) still_joints)).

(** ** Landmark sets inside the image, one for each label *)

(** Both image coordinates lie in [[0, 1]]. *)
Definition in_unit (l : NormalizedLandmark) : Prop :=
  0 <= x l <= 1 /\ 0 <= y l <= 1.

Definition in_unitb (l : NormalizedLandmark) : bool :=
  Qle_bool 0 (x l) && Qle_bool (x l) 1 && Qle_bool 0 (y l) && Qle_bool (y l) 1.

(** The left wrist raised above elbow and shoulder, the right arm hanging. *)
Definition waving_joints : Joints :=
  mkJoints (pt 0.6 0.2) (pt 0.4 0.8) (pt 0.6 0.4) (pt 0.4 0.6)
           (pt 0.6 0.5) (pt 0.4 0.5) (pt 0.55 0.7) (pt 0.45 0.7)
           (pt 0.55 0.9) (pt 0.45 0.9).

(** Wrists together, above the elbows and below the shoulders. *)
Definition folded_joints : Joints :=
  mkJoints (pt 0.52 0.45) (pt 0.5 0.45) (pt 0.7 0.6) (pt 0.3 0.6)
           (pt 0.6 0.3) (pt 0.4 0.3) (pt 0.55 0.7) (pt 0.45 0.7)
           (pt 0.55 0.9) (pt 0.45 0.9).

(** Each wrist beyond the opposite shoulder, above its elbow and below its
    shoulder. *)
Definition crossed_joints : Joints :=
  mkJoints (pt 0.45 0.45) (pt 0.55 0.45) (pt 0.7 0.6) (pt 0.3 0.6)
           (pt 0.6 0.3) (pt 0.4 0.3) (pt 0.55 0.7) (pt 0.45 0.7)
           (pt 0.55 0.9) (pt 0.45 0.9).

(** Arms hanging, hips below the knees. *)
Definition sitting_joints : Joints := upright 0.7 0.5 0.3 0.8 0.7.

(** Wrists at hip height, each elbow inward of its wrist. *)
Definition standing_joints : Joints :=
  mkJoints (pt 0.65 0.5) (pt 0.35 0.5) (pt 0.6 0.35) (pt 0.4 0.35)
           (pt 0.6 0.2) (pt 0.4 0.2) (pt 0.55 0.5) (pt 0.45 0.5)
           (pt 0.55 0.8) (pt 0.45 0.8).

Definition example_of (p : PoseLabel) : Joints :=
  match p with
  | TPose => still_joints
  | Heart => heart_joints
  | HandsUp => one_sided_joints
  | Waving => waving_joints
  | FoldedHands => folded_joints
  | ArmsCrossed => crossed_joints
  | BendingDown => bent_joints
  | Sitting => sitting_joints
  | Standing => standing_joints
  | HandsOnHips => neutral_joints
  | Unknown => fallback_joints
  end.

(** The labels decided by the hips, knees and hanging arms: those of the
    tests that follow Arms Crossed, and the fallback. *)
Definition lower_body_labels : list PoseLabel :=
  [BendingDown; Sitting; Standing; HandsOnHips; Unknown].

(** A detection whose landmark list stops before the knees. *)
Definition short_tick : Tick :=
  mkTick true (Some (firstn 25 (landmarks_of (pt 0 0) still_joints))).

(** Hips at 0.5, one knee at the bottom of the image and the other at
    [2 ^ -60]: the mean of the knees is above [0.5], the sum [1 + 2 ^ -60]
    rounds to [1] and the computed average is [0.5].  The arms hang. *)
Definition rounded_knees (shoulder : Q) : Joints :=
  mkJoints (pt 0.5 0.875) (pt 0.5 0.875) (pt 0.5 0.625) (pt 0.5 0.625)
           (pt 0.5 shoulder) (pt 0.5 shoulder) (pt 0.5 0.5) (pt 0.5 0.5)
           (pt 0.5 1) (pt 0.5 (2 ^ (-60))).

(** With the shoulders at hip height, and with the shoulders far above. *)
Definition level_rounded_joints : Joints := rounded_knees 0.5.
Definition upright_rounded_joints : Joints := rounded_knees 0.125.

(** * Properties *)

(** ** The boolean comparisons decide the order of [Q] *)

Lemma Qltb_lt (a b : Q) : (a <? b) = true <-> a < b.
Proof.
  unfold Qltb. rewrite negb_true_iff, <- not_true_iff_false, Qle_bool_iff.
  split; [apply Qnot_le_lt | apply Qlt_not_le].
Qed.

Lemma Qltb_ge (a b : Q) : (a <? b) = false <-> b <= a.
Proof.
  unfold Qltb. rewrite negb_false_iff. apply Qle_bool_iff.
Qed.

Lemma Qgtb_gt (a b : Q) : (a >? b) = true <-> a > b.
Proof. apply Qltb_lt. Qed.

Lemma Qleb_le (a b : Q) : (a <=? b) = true <-> a <= b.
Proof. apply Qle_bool_iff. Qed.

Lemma Qleb_gt (a b : Q) : (a <=? b) = false <-> b < a.
Proof.
  unfold Qleb. rewrite <- not_true_iff_false, Qle_bool_iff.
  split; [apply Qnot_le_lt | apply Qlt_not_le].
Qed.

(** Turns every boolean test of the goal and of the context into the
    corresponding order statement. *)
Ltac reflect_tests :=
  repeat rewrite ?andb_true_iff, ?orb_true_iff, ?negb_true_iff,
    ?Qltb_lt, ?Qgtb_gt, ?Qleb_le, ?Qltb_ge, ?Qleb_gt in *.

(** * Rounding is monotone *)

(** ** Powers of two *)

Lemma pow2_pos (k : Z) : 0 < 2 ^ k.
Proof. apply Qpower_0_lt. reflexivity. Qed.

Lemma pow2_plus (n m : Z) : 2 ^ (n + m) == 2 ^ n * 2 ^ m.
Proof. apply Qpower_plus. discriminate. Qed.

Lemma pow2_Z (k : Z) : (0 <= k)%Z -> 2 ^ k == inject_Z (2 ^ k).
Proof. intros H. symmetry. apply (Zpower_Qpower 2 k H). Qed.

Lemma pow2_le (n m : Z) : (n <= m)%Z -> 2 ^ n <= 2 ^ m.
Proof. intros H. apply Qpower_le_compat_l; [exact H | discriminate]. Qed.

Lemma pow2_lt_inv (n m : Z) : 2 ^ n < 2 ^ m -> (n < m)%Z.
Proof.
  intros H. destruct (Z_lt_le_dec n m) as [L|L]; [exact L|].
  exfalso. apply (Qlt_not_le _ _ H), pow2_le, L.
Qed.

(** ** The binade of a positive rational *)

Lemma binade_spec (q : Q) :
  0 < q -> 2 ^ binade q <= q /\ q < 2 ^ (binade q + 1).
Proof.
  intros Hq. destruct q as [n d].
  assert (Hn : (0 < n)%Z) by (unfold Qlt in Hq; simpl in Hq; lia).
  unfold binade. cbn [Qnum Qden].
  set (a := Z.log2 n). set (b := Z.log2 (Z.pos d)).
  destruct (Z.log2_spec n Hn) as [A1 A2].
  destruct (Z.log2_spec (Z.pos d) (Pos2Z.is_pos d)) as [B1 B2].
  fold a in A1, A2. fold b in B1, B2.
  assert (Ha : (0 <= a)%Z) by apply Z.log2_nonneg.
  assert (Hb : (0 <= b)%Z) by apply Z.log2_nonneg.
  assert (Qn : n # d == inject_Z n / inject_Z (Z.pos d)) by apply Qmake_Qdiv.
  assert (Dp : 0 < inject_Z (Z.pos d)) by reflexivity.
  assert (A1q : 2 ^ a <= inject_Z n)
    by (rewrite (pow2_Z a Ha), <- Zle_Qle; exact A1).
  assert (A2q : inject_Z n < 2 ^ (a + 1))
    by (rewrite (pow2_Z (a + 1)) by lia; rewrite <- Zlt_Qlt; exact A2).
  assert (B1q : 2 ^ b <= inject_Z (Z.pos d))
    by (rewrite (pow2_Z b Hb), <- Zle_Qle; exact B1).
  assert (B2q : inject_Z (Z.pos d) < 2 ^ (b + 1))
    by (rewrite (pow2_Z (b + 1)) by lia; rewrite <- Zlt_Qlt; exact B2).
  assert (Lo : 2 ^ (a - b - 1) < n # d).
  { rewrite Qn. apply Qlt_shift_div_l; [exact Dp|].
    apply Qlt_le_trans with (2 ^ a); [|exact A1q].
    replace a with ((a - b - 1) + (b + 1))%Z at 2 by lia.
    rewrite pow2_plus. apply Qmult_lt_l; [apply pow2_pos | exact B2q]. }
  assert (Hi : n # d < 2 ^ (a - b + 1)).
  { rewrite Qn. apply Qlt_shift_div_r; [exact Dp|].
    apply Qlt_le_trans with (2 ^ (a + 1)); [exact A2q|].
    replace (a + 1)%Z with ((a - b + 1) + b)%Z by lia.
    rewrite pow2_plus. apply Qmult_le_l; [apply pow2_pos | exact B1q]. }
  destruct (Qltb (n # d) (2 ^ (a - b))) eqn:T.
  - apply Qltb_lt in T. split.
    + apply Qlt_le_weak, Lo.
    + replace (a - b - 1 + 1)%Z with (a - b)%Z by lia. exact T.
  - apply Qltb_ge in T. split; [exact T | exact Hi].
Qed.

Lemma binade_mono (p q : Q) : 0 < p -> p <= q -> (binade p <= binade q)%Z.
Proof.
  intros Hp Hpq.
  assert (Hq : 0 < q) by (eapply Qlt_le_trans; eassumption).
  destruct (binade_spec p Hp) as [P1 _], (binade_spec q Hq) as [_ Q2].
  assert (L : 2 ^ binade p < 2 ^ (binade q + 1)).
  { eapply Qle_lt_trans; [exact P1|]. eapply Qle_lt_trans; eassumption. }
  apply pow2_lt_inv in L. lia.
Qed.

(** ** Rounding to an integer, half to even *)

Lemma round_half_even_bounds (s : Q) :
  (Qfloor s <= round_half_even s <= Qfloor s + 1)%Z.
Proof.
  unfold round_half_even.
  destruct (Qcompare (s - inject_Z (Qfloor s)) (1 # 2));
    try destruct (Z.even (Qfloor s)); lia.
Qed.

Lemma round_half_even_Z (n : Z) : round_half_even (inject_Z n) = n.
Proof.
  unfold round_half_even. rewrite Qfloor_Z.
  assert (E : Qcompare (inject_Z n - inject_Z n) (1 # 2) = Lt).
  { apply Qlt_alt.
    assert (Z0 : inject_Z n - inject_Z n == 0) by ring.
    rewrite Z0. reflexivity. }
  rewrite E. reflexivity.
Qed.

Lemma round_half_even_mono (s t : Q) :
  s <= t -> (round_half_even s <= round_half_even t)%Z.
Proof.
  intros H.
  pose proof (Qfloor_resp_le _ _ H) as F.
  pose proof (round_half_even_bounds s) as Bs.
  pose proof (round_half_even_bounds t) as Bt.
  destruct (Z.eq_dec (Qfloor s) (Qfloor t)) as [E|N]; [|lia].
  unfold round_half_even. rewrite <- E.
  destruct (Qcompare_spec (s - inject_Z (Qfloor s)) (1 # 2)) as [Cs|Cs|Cs];
    destruct (Qcompare_spec (t - inject_Z (Qfloor s)) (1 # 2)) as [Ct|Ct|Ct];
    try destruct (Z.even (Qfloor s)); try lia; exfalso; lra.
Qed.

#[global] Instance round_half_even_comp : Proper (Qeq ==> eq) round_half_even.
Proof.
  intros s t E. apply Z.le_antisymm; apply round_half_even_mono;
    rewrite E; apply Qle_refl.
Qed.

(** ** Rounding a positive rational *)

Lemma ulp_exponent_mono (p q : Q) :
  0 < p -> p <= q -> (ulp_exponent p <= ulp_exponent q)%Z.
Proof.
  intros Hp H. unfold ulp_exponent. pose proof (binade_mono p q Hp H). lia.
Qed.

Lemma scale_pow2 (e k : Z) :
  (k <= e)%Z -> 2 ^ e / 2 ^ k == inject_Z (2 ^ (e - k)).
Proof.
  intros H. rewrite <- pow2_Z by lia.
  replace e with ((e - k) + k)%Z at 1 by lia.
  rewrite pow2_plus. field. apply Qnot_eq_sym, Qlt_not_eq, pow2_pos.
Qed.

(** A power of two at or above the ulp bounds the rounded value from the
    side it bounds the argument. *)
Lemma round_scaled_le (q : Q) (k e : Z) :
  (k <= e)%Z -> q <= 2 ^ e ->
  inject_Z (round_half_even (q / 2 ^ k)) * 2 ^ k <= 2 ^ e.
Proof.
  intros Hk Hq.
  assert (S : q / 2 ^ k <= inject_Z (2 ^ (e - k))).
  { rewrite <- (scale_pow2 e k Hk).
    apply Qmult_le_compat_r; [exact Hq|].
    apply Qlt_le_weak, Qinv_lt_0_compat, pow2_pos. }
  apply round_half_even_mono in S. rewrite round_half_even_Z in S.
  rewrite Zle_Qle in S.
  apply Qle_trans with (inject_Z (2 ^ (e - k)) * 2 ^ k).
  - apply Qmult_le_compat_r; [exact S | apply Qlt_le_weak, pow2_pos].
  - rewrite <- pow2_Z by lia. rewrite <- pow2_plus.
    replace (e - k + k)%Z with e by lia. apply Qle_refl.
Qed.

Lemma round_scaled_ge (q : Q) (k e : Z) :
  (k <= e)%Z -> 2 ^ e <= q ->
  2 ^ e <= inject_Z (round_half_even (q / 2 ^ k)) * 2 ^ k.
Proof.
  intros Hk Hq.
  assert (S : inject_Z (2 ^ (e - k)) <= q / 2 ^ k).
  { rewrite <- (scale_pow2 e k Hk).
    apply Qmult_le_compat_r; [exact Hq|].
    apply Qlt_le_weak, Qinv_lt_0_compat, pow2_pos. }
  apply round_half_even_mono in S. rewrite round_half_even_Z in S.
  rewrite Zle_Qle in S.
  apply Qle_trans with (inject_Z (2 ^ (e - k)) * 2 ^ k).
  - rewrite <- pow2_Z by lia. rewrite <- pow2_plus.
    replace (e - k + k)%Z with e by lia. apply Qle_refl.
  - apply Qmult_le_compat_r; [exact S | apply Qlt_le_weak, pow2_pos].
Qed.

Lemma round_positive_mono (p q : Q) :
  0 < p -> p <= q -> round_positive p <= round_positive q.
Proof.
  intros Hp H.
  assert (Hq : 0 < q) by (eapply Qlt_le_trans; eassumption).
  pose proof (ulp_exponent_mono p q Hp H) as K.
  unfold round_positive.
  destruct (Z.eq_dec (ulp_exponent p) (ulp_exponent q)) as [E|N].
  - rewrite E. apply Qmult_le_compat_r; [|apply Qlt_le_weak, pow2_pos].
    rewrite <- Zle_Qle. apply round_half_even_mono.
    apply Qmult_le_compat_r; [exact H|].
    apply Qlt_le_weak, Qinv_lt_0_compat, pow2_pos.
  - assert (B : (binade p < binade q)%Z /\ ulp_exponent q = (binade q - 52)%Z
                /\ (ulp_exponent p < ulp_exponent q)%Z)
      by (unfold ulp_exponent in *; lia).
    destruct B as (B & Kq & Kp).
    destruct (binade_spec p Hp) as [_ P2], (binade_spec q Hq) as [Q1 _].
    apply Qle_trans with (2 ^ binade q).
    + apply round_scaled_le; [lia|].
      apply Qle_trans with (2 ^ (binade p + 1));
        [apply Qlt_le_weak, P2 | apply pow2_le; lia].
    + apply round_scaled_ge; [lia | exact Q1].
Qed.

Lemma round_positive_nonneg (q : Q) : 0 < q -> 0 <= round_positive q.
Proof.
  intros Hq. unfold round_positive.
  apply Qmult_le_0_compat; [|apply Qlt_le_weak, pow2_pos].
  assert (S : inject_Z 0 <= q / 2 ^ ulp_exponent q).
  { apply Qle_shift_div_l; [apply pow2_pos|].
    change (inject_Z 0) with 0. lra. }
  apply round_half_even_mono in S. rewrite round_half_even_Z in S.
  rewrite Zle_Qle in S. exact S.
Qed.

(** ** Rounding to binary64 *)

Lemma round64_comp (p q : Q) : p == q -> round64 p = round64 q.
Proof. intros E. unfold round64. rewrite (Qred_complete p q E). reflexivity. Qed.

#[global] Instance round64_Proper : Proper (Qeq ==> Qeq) round64.
Proof. intros p q E. rewrite (round64_comp p q E). reflexivity. Qed.

Lemma round64_mono (p q : Q) : p <= q -> round64 p <= round64 q.
Proof.
  intros H. unfold round64.
  assert (H' : Qred p <= Qred q) by (rewrite !Qred_correct; exact H).
  destruct (Qcompare_spec (Qred p) 0) as [Cp|Cp|Cp];
    destruct (Qcompare_spec (Qred q) 0) as [Cq|Cq|Cq];
    try (exfalso; lra).
  - apply Qle_refl.
  - apply round_positive_nonneg, Cq.
  - assert (0 <= round_positive (- Qred p))
      by (apply round_positive_nonneg; lra).
    lra.
  - assert (round_positive (- Qred q) <= round_positive (- Qred p))
      by (apply round_positive_mono; lra).
    lra.
  - assert (0 <= round_positive (- Qred p))
      by (apply round_positive_nonneg; lra).
    assert (0 <= round_positive (Qred q))
      by (apply round_positive_nonneg; lra).
    lra.
  - apply round_positive_mono; assumption.
Qed.

Lemma round64_half : round64 0.5 == 0.5 /\ round64 (- 0.5) == - 0.5.
Proof. split; vm_compute; reflexivity. Qed.

(** A rounded difference strictly inside [(-0.5, 0.5)] comes from an exact
    one inside it: [0.5] is a binary64 number. *)
Lemma rounded_gap_exact (d : Q) : Qabs (round64 d) < 0.5 -> Qabs d < 0.5.
Proof.
  destruct round64_half as [Hp Hn].
  rewrite !Qabs_Qlt_condition. intros [L U]. split; apply Qnot_le_lt; intros C.
  - apply round64_mono in C. rewrite Hn in C. lra.
  - apply round64_mono in C. rewrite Hp in C. lra.
Qed.

(** The order of two computed averages is the order of the exact means. *)
Lemma rounded_mean_lt (a b c d : Q) :
  round64 (round64 (a + b) / 2) < round64 (round64 (c + d) / 2) ->
  (a + b) / 2 < (c + d) / 2.
Proof.
  intros H. apply Qnot_le_lt. intros L. apply (Qlt_not_le _ _ H).
  apply round64_mono.
  assert (Hh : 0 < / 2) by reflexivity.
  apply Qmult_le_compat_r; [|apply Qlt_le_weak, Hh].
  apply round64_mono. apply (Qmult_le_r _ _ (/ 2) Hh), L.
Qed.

(** * The tests and the conditions *)

(** ** Each test of the source decides the condition of the specification *)

Lemma is_t_pose_spec j : is_t_pose j = true <-> Spec.t_pose j.
Proof. unfold is_t_pose, Spec.t_pose. reflect_tests. tauto. Qed.

Lemma is_hands_up_spec j : is_hands_up j = true <-> Spec.hands_up j.
Proof.
  unfold is_hands_up, Spec.hands_up, Spec.wrists_raised. reflect_tests. tauto.
Qed.

Lemma is_waving_spec j : is_waving j = true <-> Spec.waving j.
Proof. unfold is_waving, Spec.waving. reflect_tests. tauto. Qed.

Lemma is_folded_hands_spec j : is_folded_hands j = true <-> Spec.folded_hands j.
Proof. unfold is_folded_hands, Spec.folded_hands. reflect_tests. tauto. Qed.

Lemma is_arms_crossed_spec j : is_arms_crossed j = true <-> Spec.arms_crossed j.
Proof. unfold is_arms_crossed, Spec.arms_crossed. reflect_tests. tauto. Qed.

Lemma is_bending_down_computed j :
  is_bending_down j = true <-> Computed.bending_down j.
Proof. unfold is_bending_down, Computed.bending_down. reflect_tests. tauto. Qed.

Lemma is_sitting_computed j : is_sitting j = true <-> Computed.sitting j.
Proof. unfold is_sitting, Computed.sitting. reflect_tests. tauto. Qed.

Lemma is_standing_spec j : is_standing j = true <-> Spec.standing j.
Proof. unfold is_standing, Spec.standing. reflect_tests. tauto. Qed.

Lemma is_hands_on_hips_computed j :
  is_hands_on_hips j = true <-> Computed.hands_on_hips j.
Proof.
  unfold is_hands_on_hips, Computed.hands_on_hips. reflect_tests. tauto.
Qed.

(** ** The computed tests against the exact conditions *)

Lemma hips_above_knees_exact j :
  avg_hip_y j < avg_knee_y j -> Spec.avg_hip_y j < Spec.avg_knee_y j.
Proof. apply rounded_mean_lt. Qed.

Lemma hips_below_knees_exact j :
  avg_knee_y j < avg_hip_y j -> Spec.avg_knee_y j < Spec.avg_hip_y j.
Proof. apply rounded_mean_lt. Qed.

(** With the exact mean of the hips above that of the knees, one of the
    exact conditions of Bending Down and Hands on Hips holds. *)
Lemma hips_above_knees_spec j :
  Spec.avg_hip_y j < Spec.avg_knee_y j ->
  Spec.bending_down j \/ Spec.hands_on_hips j.
Proof.
  intros H. unfold Spec.bending_down, Spec.hands_on_hips.
  destruct (Qlt_le_dec 0.2 (Qabs (Spec.avg_shoulder_y j - Spec.avg_hip_y j)))
    as [G|G]; [right | left]; split; assumption.
Qed.

Lemma is_bending_down_exact j :
  is_bending_down j = true -> Spec.bending_down j \/ Spec.hands_on_hips j.
Proof.
  rewrite is_bending_down_computed. intros [_ H].
  apply hips_above_knees_spec, hips_above_knees_exact, H.
Qed.

Lemma is_hands_on_hips_exact j :
  is_hands_on_hips j = true -> Spec.bending_down j \/ Spec.hands_on_hips j.
Proof.
  rewrite is_hands_on_hips_computed. intros [_ H].
  apply hips_above_knees_spec, hips_above_knees_exact, H.
Qed.

Lemma is_sitting_exact j : is_sitting j = true -> Spec.sitting j.
Proof.
  rewrite is_sitting_computed. intros [H G]. split.
  - apply hips_below_knees_exact, H.
  - apply rounded_gap_exact, G.
Qed.

(** The Heart test of the source negates each alignment on its own. *)
Lemma is_heart_iff j :
  is_heart j = true <->
  Spec.wrists_close j /\ Spec.wrists_raised j
  /\ ~ Spec.left_wrist_over_elbow j /\ ~ Spec.right_wrist_over_elbow j.
Proof.
  unfold is_heart, Spec.wrists_close, Spec.wrists_raised,
    Spec.left_wrist_over_elbow, Spec.right_wrist_over_elbow.
  reflect_tests.
  split.
  - intros [[[[[[H1 H2] H3] H4] H5] H6] H7].
    repeat split; auto using Qle_not_lt.
  - intros [H1 [[H2 [H3 [H4 H5]]] [H6 H7]]].
    repeat split; auto using Qnot_lt_le.
Qed.


(** ** Reading the joints *)

Lemma in_unitb_spec l : in_unitb l = true <-> in_unit l.
Proof.
  unfold in_unitb, in_unit. rewrite !andb_true_iff, !Qle_bool_iff. tauto.
Qed.

Lemma label_text_inj p q : label_text p = label_text q -> p = q.
Proof. destruct p, q; simpl; intros H; try reflexivity; discriminate H. Qed.

Lemma pose_labels_complete p : In p pose_labels.
Proof. destruct p; simpl; tauto. Qed.

Lemma pose_labels_count : List.length pose_labels = 11%nat /\ NoDup pose_labels.
Proof.
  split; [reflexivity|].
  repeat (constructor; [simpl; intuition discriminate|]). constructor.
Qed.

Lemma read_joints_Ok index landmarks j :
  read_joints index landmarks = Ok j <->
  forall k, nth_error landmarks (index k) = Some (joint_of j k).
Proof.
  unfold read_joints, landmark. split.
  - intros H k.
    repeat match type of H with
           | context [nth_error landmarks (index ?c)] =>
               destruct (nth_error landmarks (index c)) eqn:?; simpl in H;
               [|discriminate H]
           end.
    inversion H; subst j; destruct k; simpl; assumption.
  - intros H.
    rewrite (H LEFT_WRIST), (H RIGHT_WRIST), (H LEFT_ELBOW), (H RIGHT_ELBOW),
      (H LEFT_SHOULDER), (H RIGHT_SHOULDER), (H LEFT_HIP), (H RIGHT_HIP),
      (H LEFT_KNEE), (H RIGHT_KNEE).
    destruct j; reflexivity.
Qed.

Lemma read_joints_present index landmarks :
  (forall k, exists l, nth_error landmarks (index k) = Some l) ->
  exists j, read_joints index landmarks = Ok j.
Proof.
  intros H.
  destruct (H LEFT_WRIST) as [lw Hlw], (H RIGHT_WRIST) as [rw Hrw],
    (H LEFT_ELBOW) as [le Hle], (H RIGHT_ELBOW) as [re Hre],
    (H LEFT_SHOULDER) as [ls Hls], (H RIGHT_SHOULDER) as [rs Hrs],
    (H LEFT_HIP) as [lh Hlh], (H RIGHT_HIP) as [rh Hrh],
    (H LEFT_KNEE) as [lk Hlk], (H RIGHT_KNEE) as [rk Hrk].
  exists (mkJoints lw rw le re ls rs lh rh lk rk).
  apply read_joints_Ok. intros k; destruct k; assumption.
Qed.

Lemma read_joints_not_ValueError index landmarks :
  read_joints index landmarks <> ValueError.
Proof.
  unfold read_joints, landmark.
  repeat (match goal with
          | |- context [nth_error landmarks (index ?c)] =>
              destruct (nth_error landmarks (index c))
          end; cbn [bind]; try discriminate).
Qed.

Lemma read_joints_landmarks_of other j :
  read_joints mediapipe_index (landmarks_of other j) = Ok j.
Proof. apply read_joints_Ok. intros k; destruct k; reflexivity. Qed.

(** ** The cascade returns the text of the first matching label *)

Lemma cascade_text j : cascade j = label_text (first_match j).
Proof.
  unfold cascade, first_match.
  repeat match goal with
         | |- context [if ?b then _ else _] => destruct b; [reflexivity|]
         end.
  reflexivity.
Qed.

Lemma detect_pose_cascade index landmarks j :
  read_joints index landmarks = Ok j ->
  detect_pose index landmarks = Ok (cascade j).
Proof. intros H. unfold detect_pose. rewrite H. reflexivity. Qed.

Lemma detect_pose_label index landmarks j p :
  read_joints index landmarks = Ok j ->
  detect_pose index landmarks = Ok (label_text p) <-> first_match j = p.
Proof.
  intros H. rewrite (detect_pose_cascade _ _ _ H), cascade_text. split.
  - intros E. inversion E as [E']. apply label_text_inj, E'.
  - intros ->. reflexivity.
Qed.

Lemma is_heart_spec j : is_heart j = true -> Spec.heart j.
Proof. rewrite is_heart_iff. unfold Spec.heart. tauto. Qed.

(** A test that decides a condition is [false] exactly when the condition
    fails. *)
Lemma not_true_false_iff (b : bool) (P : Prop) :
  (b = true <-> P) -> (b = false <-> ~ P).
Proof. intros H. rewrite <- H. symmetry. apply not_true_iff_false. Qed.

Lemma first_match_Unknown j :
  first_match j = Unknown <->
  is_t_pose j = false /\ is_heart j = false /\ is_hands_up j = false
  /\ is_waving j = false /\ is_folded_hands j = false
  /\ is_arms_crossed j = false /\ is_bending_down j = false
  /\ is_sitting j = false /\ is_standing j = false
  /\ is_hands_on_hips j = false.
Proof.
  unfold first_match.
  destruct (is_t_pose j), (is_heart j), (is_hands_up j), (is_waving j),
    (is_folded_hands j), (is_arms_crossed j), (is_bending_down j),
    (is_sitting j), (is_standing j), (is_hands_on_hips j);
    split; intros H; try discriminate H; try reflexivity;
    try (repeat split; reflexivity);
    decompose [and] H; discriminate.
Qed.

Lemma first_match_none j : Spec.none_matches j -> first_match j = Unknown.
Proof.
  unfold Spec.none_matches.
  intros (H1 & H2 & H3 & H4 & H5 & H6 & H7 & H8 & H9 & H10).
  apply first_match_Unknown.
  rewrite (not_true_false_iff _ _ (is_t_pose_spec j)),
    (not_true_false_iff _ _ (is_hands_up_spec j)),
    (not_true_false_iff _ _ (is_waving_spec j)),
    (not_true_false_iff _ _ (is_folded_hands_spec j)),
    (not_true_false_iff _ _ (is_arms_crossed_spec j)),
    (not_true_false_iff _ _ (is_standing_spec j)).
  repeat split; try assumption; apply not_true_iff_false; intros E.
  - apply H2, is_heart_spec, E.
  - destruct (is_bending_down_exact j E); contradiction.
  - apply H8, is_sitting_exact, E.
  - destruct (is_hands_on_hips_exact j E); contradiction.
Qed.

Lemma first_match_TPose j : first_match j = TPose <-> is_t_pose j = true.
Proof.
  unfold first_match.
  destruct (is_t_pose j); [tauto|].
  split; [|discriminate].
  repeat match goal with
         | |- context [if ?b then _ else _] => destruct b; [discriminate|]
         end.
  discriminate.
Qed.

Lemma first_match_Heart j :
  first_match j = Heart <-> is_t_pose j = false /\ is_heart j = true.
Proof.
  unfold first_match.
  destruct (is_t_pose j); [split; [discriminate | intros [H _]; discriminate H]|].
  destruct (is_heart j); [tauto|].
  split; [|intros [_ H]; discriminate H].
  repeat match goal with
         | |- context [if ?b then _ else _] => destruct b; [discriminate|]
         end.
  discriminate.
Qed.

(** The ten conditions fail as soon as the nine other than Heart fail:
    Heart, in either reading, needs both wrists raised. *)
Lemma none_matches_tests j :
  is_t_pose j = false -> is_hands_up j = false -> is_waving j = false ->
  is_folded_hands j = false -> is_arms_crossed j = false ->
  ~ Spec.bending_down j -> ~ Spec.sitting j ->
  is_standing j = false -> ~ Spec.hands_on_hips j ->
  Spec.none_matches j.
Proof.
  rewrite (not_true_false_iff _ _ (is_t_pose_spec j)),
    (not_true_false_iff _ _ (is_hands_up_spec j)),
    (not_true_false_iff _ _ (is_waving_spec j)),
    (not_true_false_iff _ _ (is_folded_hands_spec j)),
    (not_true_false_iff _ _ (is_arms_crossed_spec j)),
    (not_true_false_iff _ _ (is_standing_spec j)).
  unfold Spec.none_matches, Spec.heart, Spec.hands_up. tauto.
Qed.

(** Refutes an exact condition on hips, knees and shoulders at a concrete
    landmark set: one of its two comparisons evaluates to [false]. *)
Ltac decide_false H :=
  first [apply Qltb_lt in H | apply Qleb_le in H];
  vm_compute in H; discriminate H.

Ltac refute_exact :=
  let H := fresh "H" in
  let H1 := fresh "H" in
  let H2 := fresh "H" in
  intros H;
  unfold Spec.bending_down, Spec.sitting, Spec.hands_on_hips in H;
  destruct H as [H1 H2];
  first [decide_false H1 | decide_false H2].

(** Proves the conditions that fail at a concrete landmark set. *)
Ltac none_match :=
  apply none_matches_tests;
  first [vm_compute; reflexivity | refute_exact].

Lemma first_match_BendingDown j :
  is_t_pose j = false -> is_heart j = false -> is_hands_up j = false ->
  is_waving j = false -> is_folded_hands j = false ->
  is_arms_crossed j = false -> is_bending_down j = true ->
  first_match j = BendingDown.
Proof.
  unfold first_match. intros -> -> -> -> -> -> ->. reflexivity.
Qed.

(** Computed average of the hips above that of the knees: one of the tests
    of Bending Down and Hands on Hips holds. *)
Lemma hips_above_knees_covered j :
  avg_hip_y j < avg_knee_y j ->
  Computed.bending_down j \/ Computed.hands_on_hips j.
Proof.
  intros H. unfold Computed.bending_down, Computed.hands_on_hips.
  destruct (Qlt_le_dec (round64 0.2)
              (Qabs (round64 (avg_shoulder_y j - avg_hip_y j)))) as [G|G];
    [right | left]; split; assumption.
Qed.

Lemma hips_above_knees_not_Unknown j :
  avg_hip_y j < avg_knee_y j -> first_match j <> Unknown.
Proof.
  intros H E. apply first_match_Unknown in E.
  destruct E as (_ & _ & _ & _ & _ & _ & Eb & _ & _ & Eh).
  apply (not_true_false_iff _ _ (is_bending_down_computed j)) in Eb.
  apply (not_true_false_iff _ _ (is_hands_on_hips_computed j)) in Eh.
  destruct (hips_above_knees_covered j H); contradiction.
Qed.

(** * The classifier *)

(** ** Totality *)

(** C1. On every landmark list in which the ten joints are present,
    [detect_pose] does not raise: it returns the text of a label of the
    eleven-label enumeration, and of no other label. *)
Theorem detect_pose_total index landmarks :
  (forall k, exists l, nth_error landmarks (index k) = Some l) ->
  exists p,
    In p pose_labels
    /\ List.length pose_labels = 11%nat
    /\ detect_pose index landmarks = Ok (label_text p)
    /\ forall q, detect_pose index landmarks = Ok (label_text q) -> q = p.
Proof.
  intros H. destruct (read_joints_present _ _ H) as [j Hj].
  exists (first_match j). repeat split.
  - apply pose_labels_complete.
  - apply (detect_pose_label _ _ _ _ Hj). reflexivity.
  - intros q Hq. symmetry. apply (detect_pose_label _ _ _ _ Hj), Hq.
Qed.

Lemma detect_pose_total_witness :
  (forall k, exists l,
      nth_error (landmarks_of (pt 0 0) still_joints) (mediapipe_index k) = Some l)
  /\ exists p,
      In p pose_labels
      /\ List.length pose_labels = 11%nat
      /\ detect_pose mediapipe_index (landmarks_of (pt 0 0) still_joints)
         = Ok (label_text p)
      /\ forall q,
          detect_pose mediapipe_index (landmarks_of (pt 0 0) still_joints)
          = Ok (label_text q) -> q = p.
Proof.
  assert (H : forall k, exists l,
             nth_error (landmarks_of (pt 0 0) still_joints) (mediapipe_index k)
             = Some l)
    by (intros k; destruct k; eexists; reflexivity).
  split; [exact H|].
  exact (detect_pose_total mediapipe_index _ H).
Defined.

(** ** Priority of T-Pose over Hands Up *)

(** C2. A landmark set that satisfies both the T-Pose condition and the
    Hands-Up condition is classified T-Pose, not Hands Up. *)
Theorem t_pose_before_hands_up index landmarks j :
  read_joints index landmarks = Ok j ->
  Spec.t_pose j -> Spec.hands_up j ->
  detect_pose index landmarks = Ok (label_text TPose)
  /\ detect_pose index landmarks <> Ok (label_text HandsUp).
Proof.
  intros Hj Ht _.
  assert (E : first_match j = TPose)
    by (apply first_match_TPose, is_t_pose_spec, Ht).
  split.
  - apply (detect_pose_label _ _ _ _ Hj), E.
  - intros H. apply (detect_pose_label _ _ _ _ Hj) in H.
    rewrite E in H. discriminate H.
Qed.

Lemma t_pose_before_hands_up_witness :
  Spec.t_pose level_raised_joints /\ Spec.hands_up level_raised_joints
  /\ detect_pose mediapipe_index (landmarks_of (pt 0 0) level_raised_joints)
     = Ok (label_text TPose)
  /\ detect_pose mediapipe_index (landmarks_of (pt 0 0) level_raised_joints)
     <> Ok (label_text HandsUp).
Proof.
  assert (Ht : Spec.t_pose level_raised_joints)
    by (apply is_t_pose_spec; vm_compute; reflexivity).
  assert (Hu : Spec.hands_up level_raised_joints)
    by (apply is_hands_up_spec; vm_compute; reflexivity).
  split; [exact Ht|]. split; [exact Hu|].
  exact (t_pose_before_hands_up mediapipe_index _ _
           (read_joints_landmarks_of (pt 0 0) level_raised_joints) Ht Hu).
Defined.

(** ** The fallback *)

(** C3. When none of the ten conditions holds, [detect_pose] returns the
    text of the fallback label [Unknown], a member of the enumeration. *)
Theorem fallback_when_none_matches index landmarks j :
  read_joints index landmarks = Ok j ->
  Spec.none_matches j ->
  detect_pose index landmarks = Ok (label_text Unknown)
  /\ In Unknown pose_labels.
Proof.
  intros Hj Hn. split.
  - apply (detect_pose_label _ _ _ _ Hj), first_match_none, Hn.
  - apply pose_labels_complete.
Qed.

Lemma fallback_when_none_matches_witness :
  Spec.none_matches fallback_joints
  /\ detect_pose mediapipe_index (landmarks_of (pt 0 0) fallback_joints)
     = Ok (label_text Unknown)
  /\ In Unknown pose_labels.
Proof.
  assert (Hn : Spec.none_matches fallback_joints)
    by none_match.
  split; [exact Hn|].
  exact (fallback_when_none_matches mediapipe_index _ _
           (read_joints_landmarks_of (pt 0 0) fallback_joints) Hn).
Defined.

(** ** Heart *)

(** C4, as stated, fails: with both wrists raised and close together, the
    left wrist over its elbow and the right wrist away from its elbow, the
    T-Pose condition fails and the Heart condition of the specification
    holds, but [detect_pose] returns "Hands Up". *)
Lemma heart_negation_scope_counterexample :
  read_joints mediapipe_index (landmarks_of (pt 0 0) one_sided_joints)
  = Ok one_sided_joints
  /\ ~ Spec.t_pose one_sided_joints
  /\ Spec.heart one_sided_joints
  /\ detect_pose mediapipe_index (landmarks_of (pt 0 0) one_sided_joints)
     = Ok (label_text HandsUp)
  /\ detect_pose mediapipe_index (landmarks_of (pt 0 0) one_sided_joints)
     <> Ok (label_text Heart).
Proof.
  split; [apply read_joints_landmarks_of|].
  split; [apply (not_true_false_iff _ _ (is_t_pose_spec _)); vm_compute;
          reflexivity|].
  split.
  - unfold Spec.heart. split; [|split].
    + apply Qltb_lt. vm_compute. reflexivity.
    + apply is_hands_up_spec. vm_compute. reflexivity.
    + intros [_ H]. apply Qltb_lt in H. vm_compute in H. discriminate H.
  - split; [vm_compute; reflexivity | vm_compute; discriminate].
Qed.

(** C4, amended. [detect_pose] returns Heart exactly when the T-Pose
    condition fails, the wrists are horizontally close, both wrists are above
    their elbows and shoulders, and neither wrist is over its own elbow
    (the alignment is negated for each side separately). *)
Theorem heart_iff index landmarks j :
  read_joints index landmarks = Ok j ->
  detect_pose index landmarks = Ok (label_text Heart) <->
  ~ Spec.t_pose j
  /\ Spec.wrists_close j /\ Spec.wrists_raised j
  /\ ~ Spec.left_wrist_over_elbow j /\ ~ Spec.right_wrist_over_elbow j.
Proof.
  intros Hj.
  rewrite (detect_pose_label _ _ _ _ Hj), first_match_Heart,
    (not_true_false_iff _ _ (is_t_pose_spec j)), is_heart_iff.
  tauto.
Qed.

Lemma heart_iff_witness :
  read_joints mediapipe_index (landmarks_of (pt 0 0) heart_joints)
  = Ok heart_joints
  /\ (detect_pose mediapipe_index (landmarks_of (pt 0 0) heart_joints)
      = Ok (label_text Heart) <->
      ~ Spec.t_pose heart_joints
      /\ Spec.wrists_close heart_joints /\ Spec.wrists_raised heart_joints
      /\ ~ Spec.left_wrist_over_elbow heart_joints
      /\ ~ Spec.right_wrist_over_elbow heart_joints)
  /\ detect_pose mediapipe_index (landmarks_of (pt 0 0) heart_joints)
     = Ok (label_text Heart).
Proof.
  split; [apply read_joints_landmarks_of|].
  split; [|vm_compute; reflexivity].
  exact (heart_iff mediapipe_index _ _
           (read_joints_landmarks_of (pt 0 0) heart_joints)).
Defined.

(** ** The neutral landmark set *)

(** C5, as stated, fails: a landmark set with the wrists 0.3 below the
    elbows, the elbows 0.3 below the shoulders, the shoulders 0.4 above the
    hips and the hips 0.4 above the knees is classified "Hands on Hips". *)
Lemma neutral_set_counterexample :
  Spec.neutral 0.25 neutral_joints
  /\ Spec.hands_on_hips neutral_joints
  /\ ~ Spec.none_matches neutral_joints
  /\ detect_pose mediapipe_index (landmarks_of (pt 0 0) neutral_joints)
     = Ok (label_text HandsOnHips)
  /\ detect_pose mediapipe_index (landmarks_of (pt 0 0) neutral_joints)
     <> Ok (label_text Unknown).
Proof.
  assert (Hh : Spec.hands_on_hips neutral_joints)
    by (split; apply Qltb_lt; vm_compute; reflexivity).
  split.
  - unfold Spec.neutral, Spec.arms_hanging.
    repeat split; apply Qltb_lt; vm_compute; reflexivity.
  - split; [exact Hh|]. split.
    + unfold Spec.none_matches. tauto.
    + split; [vm_compute; reflexivity | vm_compute; discriminate].
Qed.

(** C5, amended. There is a landmark set with the wrists far below the
    elbows, the elbows far below the shoulders, the shoulders far above the
    hips and the hips level with the knees that satisfies none of the ten
    conditions; and on every landmark set that satisfies none of them
    [detect_pose] returns Unknown. *)
Theorem neutral_fallback :
  (exists j, Spec.neutral_level 0.25 j /\ Spec.none_matches j)
  /\ forall index landmarks j,
      read_joints index landmarks = Ok j ->
      Spec.none_matches j ->
      detect_pose index landmarks = Ok (label_text Unknown).
Proof.
  split.
  - exists fallback_joints. split.
    + unfold Spec.neutral_level, Spec.arms_hanging.
      repeat split; try (apply Qltb_lt; vm_compute; reflexivity).
    + none_match.
  - intros index landmarks j Hj Hn.
    apply (detect_pose_label _ _ _ _ Hj), first_match_none, Hn.
Qed.

Lemma neutral_fallback_witness :
  Spec.neutral_level 0.25 fallback_joints
  /\ Spec.none_matches fallback_joints
  /\ detect_pose mediapipe_index (landmarks_of (pt 0 0) fallback_joints)
     = Ok (label_text Unknown).
Proof.
  assert (Hn : Spec.none_matches fallback_joints)
    by none_match.
  split.
  - unfold Spec.neutral_level, Spec.arms_hanging.
    repeat split; try (apply Qltb_lt; vm_compute; reflexivity).
  - split; [exact Hn|].
    exact (proj2 neutral_fallback mediapipe_index _ _
             (read_joints_landmarks_of (pt 0 0) fallback_joints) Hn).
Defined.

(** ** Bending Down and Sitting *)

(** C6, as stated, fails: with the hips at 0.5, the knees at 1 and
    [2 ^ -60] and the shoulders at 0.5, the exact Bending-Down condition
    holds (the mean of the knees is above 0.5) and none of the six earlier
    conditions does, but the program computes the average of the knees as 0.5
    and [detect_pose] returns the fallback. *)
Lemma bending_down_rounding_counterexample :
  read_joints mediapipe_index (landmarks_of (pt 0 0) level_rounded_joints)
  = Ok level_rounded_joints
  /\ Forall in_unit (landmarks_of (pt 0 0) level_rounded_joints)
  /\ Spec.bending_down level_rounded_joints
  /\ ~ Spec.t_pose level_rounded_joints
  /\ ~ Spec.heart level_rounded_joints
  /\ ~ Spec.hands_up level_rounded_joints
  /\ ~ Spec.waving level_rounded_joints
  /\ ~ Spec.folded_hands level_rounded_joints
  /\ ~ Spec.arms_crossed level_rounded_joints
  /\ detect_pose mediapipe_index (landmarks_of (pt 0 0) level_rounded_joints)
     = Ok (label_text Unknown)
  /\ detect_pose mediapipe_index (landmarks_of (pt 0 0) level_rounded_joints)
     <> Ok (label_text BendingDown).
Proof.
  assert (Hu : ~ Spec.hands_up level_rounded_joints)
    by (apply (not_true_false_iff _ _ (is_hands_up_spec _)); vm_compute;
        reflexivity).
  split; [apply read_joints_landmarks_of|].
  split.
  { apply Forall_forall. intros l Hl. apply in_unitb_spec.
    revert l Hl. apply forallb_forall. vm_compute. reflexivity. }
  split.
  { split; [apply Qleb_le | apply Qltb_lt]; vm_compute; reflexivity. }
  split; [apply (not_true_false_iff _ _ (is_t_pose_spec _)); vm_compute;
          reflexivity|].
  split; [unfold Spec.heart, Spec.hands_up in *; tauto|].
  split; [exact Hu|].
  split; [apply (not_true_false_iff _ _ (is_waving_spec _)); vm_compute;
          reflexivity|].
  split; [apply (not_true_false_iff _ _ (is_folded_hands_spec _)); vm_compute;
          reflexivity|].
  split; [apply (not_true_false_iff _ _ (is_arms_crossed_spec _)); vm_compute;
          reflexivity|].
  split; [vm_compute; reflexivity | vm_compute; discriminate].
Qed.

(** C6, amended. The Bending-Down condition and the Sitting condition never
    hold together, on the exact means as on the computed averages; and when
    the Bending-Down test holds on the computed values and none of the six
    earlier conditions does, [detect_pose] returns Bending Down, not
    Sitting. *)
Theorem bending_down_before_sitting index landmarks j :
  read_joints index landmarks = Ok j ->
  ~ (Spec.bending_down j /\ Spec.sitting j)
  /\ ~ (Computed.bending_down j /\ Computed.sitting j)
  /\ (Computed.bending_down j ->
      ~ Spec.t_pose j -> ~ Spec.heart j -> ~ Spec.hands_up j ->
      ~ Spec.waving j -> ~ Spec.folded_hands j -> ~ Spec.arms_crossed j ->
      detect_pose index landmarks = Ok (label_text BendingDown)
      /\ detect_pose index landmarks <> Ok (label_text Sitting)).
Proof.
  intros Hj. split; [|split].
  - unfold Spec.bending_down, Spec.sitting. intros [[_ H1] [H2 _]].
    apply (Qlt_irrefl (Spec.avg_hip_y j)). eapply Qlt_trans; eassumption.
  - unfold Computed.bending_down, Computed.sitting. intros [[_ H1] [H2 _]].
    apply (Qlt_irrefl (avg_hip_y j)). eapply Qlt_trans; eassumption.
  - intros Hb H1 H2 H3 H4 H5 H6.
    assert (E : first_match j = BendingDown).
    { apply first_match_BendingDown.
      - apply (not_true_false_iff _ _ (is_t_pose_spec j)), H1.
      - apply not_true_iff_false. intros E. apply H2, is_heart_spec, E.
      - apply (not_true_false_iff _ _ (is_hands_up_spec j)), H3.
      - apply (not_true_false_iff _ _ (is_waving_spec j)), H4.
      - apply (not_true_false_iff _ _ (is_folded_hands_spec j)), H5.
      - apply (not_true_false_iff _ _ (is_arms_crossed_spec j)), H6.
      - apply is_bending_down_computed, Hb. }
    split.
    + apply (detect_pose_label _ _ _ _ Hj), E.
    + intros H. apply (detect_pose_label _ _ _ _ Hj) in H.
      rewrite E in H. discriminate H.
Qed.

Lemma bending_down_before_sitting_witness :
  Computed.bending_down bent_joints
  /\ ~ Computed.sitting bent_joints
  /\ detect_pose mediapipe_index (landmarks_of (pt 0 0) bent_joints)
     = Ok (label_text BendingDown)
  /\ detect_pose mediapipe_index (landmarks_of (pt 0 0) bent_joints)
     <> Ok (label_text Sitting).
Proof.
  pose proof (bending_down_before_sitting mediapipe_index _ _
                (read_joints_landmarks_of (pt 0 0) bent_joints))
    as (_ & Hx & Hb).
  assert (B : Computed.bending_down bent_joints)
    by (apply is_bending_down_computed; vm_compute; reflexivity).
  split; [exact B|].
  split; [intros S; apply Hx; split; assumption|].
  apply Hb.
  - exact B.
  - apply (not_true_false_iff _ _ (is_t_pose_spec _)). vm_compute. reflexivity.
  - intros (_ & H & _). apply is_hands_up_spec in H. vm_compute in H.
    discriminate H.
  - apply (not_true_false_iff _ _ (is_hands_up_spec _)). vm_compute. reflexivity.
  - apply (not_true_false_iff _ _ (is_waving_spec _)). vm_compute. reflexivity.
  - apply (not_true_false_iff _ _ (is_folded_hands_spec _)). vm_compute.
    reflexivity.
  - apply (not_true_false_iff _ _ (is_arms_crossed_spec _)). vm_compute.
    reflexivity.
Defined.

(** ** The tolerance of T-Pose *)

(** C7. With the four vertical deltas of the arms all equal to 0.0999 the
    landmark set is classified T-Pose; with any of the four at 0.1 or more
    it is not. *)
Theorem t_pose_tolerance index landmarks j :
  read_joints index landmarks = Ok j ->
  (Forall (fun d => d == 0.0999) (Spec.arm_deltas j) ->
   detect_pose index landmarks = Ok (label_text TPose))
  /\ (Exists (fun d => 0.1 <= d) (Spec.arm_deltas j) ->
      detect_pose index landmarks <> Ok (label_text TPose)).
Proof.
  intros Hj. rewrite (detect_pose_label _ _ _ _ Hj), first_match_TPose.
  unfold Spec.arm_deltas. split.
  - intros H.
    pose proof (Forall_inv H) as D1.
    pose proof (Forall_inv (Forall_inv_tail H)) as D2.
    pose proof (Forall_inv (Forall_inv_tail (Forall_inv_tail H))) as D3.
    pose proof (Forall_inv (Forall_inv_tail (Forall_inv_tail (Forall_inv_tail H))))
      as D4.
    simpl in D1, D2, D3, D4.
    apply is_t_pose_spec. unfold Spec.t_pose.
    rewrite D1, D2, D3, D4. repeat split.
  - intros H Ht. apply is_t_pose_spec in Ht.
    destruct Ht as (T1 & T2 & T3 & T4).
    rewrite !Exists_cons, Exists_nil in H.
    destruct H as [H|[H|[H|[H|[]]]]];
      apply (Qlt_irrefl 0.1); eapply Qle_lt_trans; eassumption.
Qed.

Lemma t_pose_tolerance_witness :
  Forall (fun d => d == 0.0999) (Spec.arm_deltas inside_tolerance_joints)
  /\ detect_pose mediapipe_index (landmarks_of (pt 0 0) inside_tolerance_joints)
     = Ok (label_text TPose)
  /\ Exists (fun d => 0.1 <= d) (Spec.arm_deltas on_tolerance_joints)
  /\ detect_pose mediapipe_index (landmarks_of (pt 0 0) on_tolerance_joints)
     <> Ok (label_text TPose).
Proof.
  assert (F : Forall (fun d => d == 0.0999)
                (Spec.arm_deltas inside_tolerance_joints))
    by (repeat constructor).
  assert (E : Exists (fun d => 0.1 <= d) (Spec.arm_deltas on_tolerance_joints))
    by (constructor; apply Qle_bool_iff; vm_compute; reflexivity).
  split; [exact F|].
  split; [exact (proj1 (t_pose_tolerance mediapipe_index _ _
                   (read_joints_landmarks_of (pt 0 0) inside_tolerance_joints)) F)|].
  split; [exact E|].
  exact (proj2 (t_pose_tolerance mediapipe_index _ _
                  (read_joints_landmarks_of (pt 0 0) on_tolerance_joints)) E).
Defined.

(** ** Hips above the knees *)

(** C9, as stated, fails: with the hips at 0.5, the knees at 1 and
    [2 ^ -60] and the shoulders at 0.125, the mean of the hips is below the
    mean of the knees, but the program computes both averages as 0.5 and
    [detect_pose] returns the fallback. *)
Lemma fallback_hips_above_knees_counterexample :
  read_joints mediapipe_index (landmarks_of (pt 0 0) upright_rounded_joints)
  = Ok upright_rounded_joints
  /\ Forall in_unit (landmarks_of (pt 0 0) upright_rounded_joints)
  /\ Spec.avg_hip_y upright_rounded_joints
     < Spec.avg_knee_y upright_rounded_joints
  /\ avg_hip_y upright_rounded_joints == avg_knee_y upright_rounded_joints
  /\ detect_pose mediapipe_index (landmarks_of (pt 0 0) upright_rounded_joints)
     = Ok (label_text Unknown).
Proof.
  split; [apply read_joints_landmarks_of|].
  split.
  { apply Forall_forall. intros l Hl. apply in_unitb_spec.
    revert l Hl. apply forallb_forall. vm_compute. reflexivity. }
  split; [apply Qltb_lt; vm_compute; reflexivity|].
  split; vm_compute; reflexivity.
Qed.

(** C9, amended. If [detect_pose] returns the fallback then the computed
    average of the hips is not below the computed average of the knees
    ([avg_hip_y >= avg_knee_y]); equivalently, when the computed
    [avg_hip_y < avg_knee_y] one of the tests of Bending Down and Hands on
    Hips holds, and the fallback is not returned. *)
Theorem fallback_hips_not_above_knees index landmarks j :
  read_joints index landmarks = Ok j ->
  (detect_pose index landmarks = Ok (label_text Unknown) ->
   avg_hip_y j >= avg_knee_y j)
  /\ (avg_hip_y j < avg_knee_y j ->
      (Computed.bending_down j \/ Computed.hands_on_hips j)
      /\ detect_pose index landmarks <> Ok (label_text Unknown)).
Proof.
  intros Hj. rewrite (detect_pose_label _ _ _ _ Hj). split.
  - intros E. apply Qnot_lt_le. intros H.
    exact (hips_above_knees_not_Unknown j H E).
  - intros H. split.
    + apply hips_above_knees_covered, H.
    + apply hips_above_knees_not_Unknown, H.
Qed.

Lemma fallback_hips_not_above_knees_witness :
  (detect_pose mediapipe_index (landmarks_of (pt 0 0) fallback_joints)
   = Ok (label_text Unknown)
   /\ avg_hip_y fallback_joints >= avg_knee_y fallback_joints)
  /\ (avg_hip_y neutral_joints < avg_knee_y neutral_joints
      /\ (Computed.bending_down neutral_joints
          \/ Computed.hands_on_hips neutral_joints)
      /\ detect_pose mediapipe_index (landmarks_of (pt 0 0) neutral_joints)
         <> Ok (label_text Unknown)).
Proof.
  assert (U : detect_pose mediapipe_index (landmarks_of (pt 0 0) fallback_joints)
              = Ok (label_text Unknown)) by (vm_compute; reflexivity).
  assert (L : avg_hip_y neutral_joints < avg_knee_y neutral_joints)
    by (apply Qltb_lt; vm_compute; reflexivity).
  split.
  - split; [exact U|].
    exact (proj1 (fallback_hips_not_above_knees mediapipe_index _ _
                    (read_joints_landmarks_of (pt 0 0) fallback_joints)) U).
  - split; [exact L|].
    exact (proj2 (fallback_hips_not_above_knees mediapipe_index _ _
                    (read_joints_landmarks_of (pt 0 0) neutral_joints)) L).
Defined.

(** ** What the classifier reads *)

#[global] Instance Qltb_comp : Proper (Qeq ==> Qeq ==> eq) Qltb.
Proof. intros a a' Ha b b' Hb. unfold Qltb. rewrite Ha, Hb. reflexivity. Qed.

#[global] Instance Qgtb_comp : Proper (Qeq ==> Qeq ==> eq) Qgtb.
Proof. intros a a' Ha b b' Hb. unfold Qgtb. rewrite Ha, Hb. reflexivity. Qed.

#[global] Instance Qleb_comp' : Proper (Qeq ==> Qeq ==> eq) Qleb.
Proof. intros a a' Ha b b' Hb. unfold Qleb. rewrite Ha, Hb. reflexivity. Qed.

Lemma cascade_same_xy j1 j2 :
  (forall k, same_xy (joint_of j1 k) (joint_of j2 k)) ->
  cascade j1 = cascade j2.
Proof.
  intros H.
  destruct (H LEFT_WRIST) as [Xlw Ylw], (H RIGHT_WRIST) as [Xrw Yrw],
    (H LEFT_ELBOW) as [Xle Yle], (H RIGHT_ELBOW) as [Xre Yre],
    (H LEFT_SHOULDER) as [Xls Yls], (H RIGHT_SHOULDER) as [Xrs Yrs],
    (H LEFT_HIP) as [Xlh Ylh], (H RIGHT_HIP) as [Xrh Yrh],
    (H LEFT_KNEE) as [Xlk Ylk], (H RIGHT_KNEE) as [Xrk Yrk].
  simpl in *.
  assert (As : avg_shoulder_y j1 == avg_shoulder_y j2)
    by (unfold avg_shoulder_y; rewrite Yls, Yrs; reflexivity).
  assert (Ah : avg_hip_y j1 == avg_hip_y j2)
    by (unfold avg_hip_y; rewrite Ylh, Yrh; reflexivity).
  assert (Ak : avg_knee_y j1 == avg_knee_y j2)
    by (unfold avg_knee_y; rewrite Ylk, Yrk; reflexivity).
  assert (E1 : is_t_pose j1 = is_t_pose j2)
    by (unfold is_t_pose; rewrite Ylw, Yrw, Yle, Yre, Yls, Yrs; reflexivity).
  assert (E2 : is_heart j1 = is_heart j2)
    by (unfold is_heart;
        rewrite Xlw, Xrw, Xle, Xre, Ylw, Yrw, Yle, Yre, Yls, Yrs; reflexivity).
  assert (E3 : is_hands_up j1 = is_hands_up j2)
    by (unfold is_hands_up; rewrite Ylw, Yrw, Yle, Yre, Yls, Yrs; reflexivity).
  assert (E4 : is_waving j1 = is_waving j2)
    by (unfold is_waving; rewrite Ylw, Yrw, Yle, Yre, Yls, Yrs; reflexivity).
  assert (E5 : is_folded_hands j1 = is_folded_hands j2)
    by (unfold is_folded_hands; rewrite Xlw, Xrw, Ylw, Yrw, Yle, Yre, Yls;
        reflexivity).
  assert (E6 : is_arms_crossed j1 = is_arms_crossed j2)
    by (unfold is_arms_crossed; rewrite Xlw, Xrw, Xls, Xrs, Ylw, Yrw, Yle, Yre;
        reflexivity).
  assert (E7 : is_bending_down j1 = is_bending_down j2)
    by (unfold is_bending_down; rewrite As, Ah, Ak; reflexivity).
  assert (E8 : is_sitting j1 = is_sitting j2)
    by (unfold is_sitting; rewrite Ah, Ak, Ylh, Yrh; reflexivity).
  assert (E9 : is_standing j1 = is_standing j2)
    by (unfold is_standing; rewrite Xlw, Xrw, Xle, Xre, Ylw, Yrw, Ylh, Yrh;
        reflexivity).
  assert (E10 : is_hands_on_hips j1 = is_hands_on_hips j2)
    by (unfold is_hands_on_hips; rewrite As, Ah, Ak; reflexivity).
  unfold cascade. rewrite E1, E2, E3, E4, E5, E6, E7, E8, E9, E10. reflexivity.
Qed.

(** C10. Two landmark lists that agree on the [x] and [y] of the ten joints
    are classified alike, whatever their depths, their visibility scores and
    their other landmarks. *)
Theorem detect_pose_depends_on_xy index landmarks1 landmarks2 :
  (forall k, exists a b,
      nth_error landmarks1 (index k) = Some a
      /\ nth_error landmarks2 (index k) = Some b
      /\ same_xy a b) ->
  detect_pose index landmarks1 = detect_pose index landmarks2.
Proof.
  intros H.
  assert (H1 : forall k, exists l, nth_error landmarks1 (index k) = Some l)
    by (intros k; destruct (H k) as (a & _ & Ha & _); exists a; exact Ha).
  assert (H2 : forall k, exists l, nth_error landmarks2 (index k) = Some l)
    by (intros k; destruct (H k) as (_ & b & _ & Hb & _); exists b; exact Hb).
  destruct (read_joints_present _ _ H1) as [j1 Hj1].
  destruct (read_joints_present _ _ H2) as [j2 Hj2].
  rewrite (detect_pose_cascade _ _ _ Hj1), (detect_pose_cascade _ _ _ Hj2).
  f_equal. apply cascade_same_xy. intros k.
  destruct (H k) as (a & b & Ha & Hb & Hab).
  rewrite (proj1 (read_joints_Ok _ _ _) Hj1 k) in Ha.
  rewrite (proj1 (read_joints_Ok _ _ _) Hj2 k) in Hb.
  inversion Ha; inversion Hb; subst a b. exact Hab.
Qed.

Lemma detect_pose_depends_on_xy_witness :
  landmarks_of (pt 0 0) bent_joints
  <> landmarks_of (mkLandmark 0.9 0.1 0.3 0.2) bent_joints_hidden
  /\ detect_pose mediapipe_index (landmarks_of (pt 0 0) bent_joints)
     = detect_pose mediapipe_index
         (landmarks_of (mkLandmark 0.9 0.1 0.3 0.2) bent_joints_hidden).
Proof.
  split; [vm_compute; discriminate|].
  apply (detect_pose_depends_on_xy mediapipe_index).
  intros k; destruct k; do 2 eexists;
    (split; [reflexivity | split; [reflexivity | split; reflexivity]]).
Defined.

(** * The frame loop *)

Lemma update_frame_failed_read index t :
  ret t = false -> update_frame index t = Ok [].
Proof. intros H. unfold update_frame. rewrite H. reflexivity. Qed.

Lemma run_failed_read index t rest :
  ret t = false -> run index (t :: rest) = [Ok []].
Proof. intros H. simpl. rewrite (update_frame_failed_read _ _ H). reflexivity. Qed.

(** C8. A failed read ends the loop: [update_frame] returns before
    [label.after], so no timer is pending and the reads that would follow
    are never made; after a successful read the next call is registered. *)
Theorem failed_read_ends_loop :
  update_frame mediapipe_index failed_tick = Ok []
  /\ reschedules (update_frame mediapipe_index failed_tick) = false
  /\ run mediapipe_index [failed_tick; good_tick; good_tick] = [Ok []]
  /\ reschedules (update_frame mediapipe_index good_tick) = true
  /\ List.length (run mediapipe_index [good_tick; good_tick; good_tick]) = 3%nat.
Proof. repeat split. Qed.


(** * Further properties of the classifier *)

(** ** Missing joints *)

(** X1. [detect_pose] raises [IndexError] exactly when the landmark list is too
    short to hold one of the ten joints. *)
Theorem detect_pose_IndexError_iff index landmarks :
  detect_pose index landmarks = IndexError <->
  exists k, (List.length landmarks <= index k)%nat.
Proof.
  split.
  - intros E.
    assert (D : forall k, (List.length landmarks <= index k)%nat
                          \/ exists l, nth_error landmarks (index k) = Some l).
    { intros k. destruct (nth_error landmarks (index k)) as [l|] eqn:N.
      - right. exists l. reflexivity.
      - left. apply nth_error_None, N. }
    destruct (D LEFT_WRIST) as [?|?]; [eexists; eassumption|].
    destruct (D RIGHT_WRIST) as [?|?]; [eexists; eassumption|].
    destruct (D LEFT_ELBOW) as [?|?]; [eexists; eassumption|].
    destruct (D RIGHT_ELBOW) as [?|?]; [eexists; eassumption|].
    destruct (D LEFT_SHOULDER) as [?|?]; [eexists; eassumption|].
    destruct (D RIGHT_SHOULDER) as [?|?]; [eexists; eassumption|].
    destruct (D LEFT_HIP) as [?|?]; [eexists; eassumption|].
    destruct (D RIGHT_HIP) as [?|?]; [eexists; eassumption|].
    destruct (D LEFT_KNEE) as [?|?]; [eexists; eassumption|].
    destruct (D RIGHT_KNEE) as [?|?]; [eexists; eassumption|].
    assert (P : forall k, exists l, nth_error landmarks (index k) = Some l)
      by (intros k; destruct k; assumption).
    destruct (read_joints_present _ _ P) as [j Hj].
    rewrite (detect_pose_cascade _ _ _ Hj) in E. discriminate E.
  - intros [k Hk]. apply nth_error_None in Hk.
    unfold detect_pose.
    destruct (read_joints index landmarks) as [j| |] eqn:Hj.
    + rewrite (proj1 (read_joints_Ok _ _ _) Hj k) in Hk. discriminate Hk.
    + reflexivity.
    + elim (read_joints_not_ValueError _ _ Hj).
Qed.

(** ** Which tests can decide *)

Lemma Qlt_decidable (a b : Q) : a < b \/ ~ a < b.
Proof.
  destruct (Qlt_le_dec a b) as [H|H]; [left; exact H | right].
  apply Qle_not_lt, H.
Qed.

Lemma Qle_iff_not_lt (a b : Q) : a <= b <-> ~ b < a.
Proof. split; [apply Qle_not_lt | apply Qnot_lt_le]. Qed.

Lemma Qlt_asym (a b : Q) : a < b -> ~ b < a.
Proof. intros H. apply Qle_not_lt, Qlt_le_weak, H. Qed.

Lemma Qeq_iff_le_not_lt (a b : Q) : a == b <-> b <= a /\ ~ b < a.
Proof.
  split.
  - intros E. rewrite E. split; [apply Qle_refl | apply Qlt_irrefl].
  - intros [H1 H2]. apply Qle_antisym; [apply Qnot_lt_le, H2 | exact H1].
Qed.

(** Heart needs the Hands-Up condition and Hands Up needs the Waving
    condition: when the Waving test fails so do the two before it. *)
Lemma is_waving_false j :
  is_waving j = false -> is_heart j = false /\ is_hands_up j = false.
Proof.
  rewrite (not_true_false_iff _ _ (is_waving_spec j)),
    (not_true_false_iff _ _ (is_hands_up_spec j)),
    (not_true_false_iff _ _ (is_heart_iff j)).
  unfold Spec.waving, Spec.hands_up, Spec.wrists_raised. tauto.
Qed.

(** Destructs the tests of the cascade and closes the cases by
    computation. *)
Ltac cascade_cases :=
  unfold first_match;
  repeat match goal with
         | |- context [if ?b then _ else _] => destruct b
         end;
  simpl; intuition (discriminate || congruence).

Lemma first_match_HandsUp j :
  first_match j = HandsUp <->
  is_t_pose j = false /\ is_heart j = false /\ is_hands_up j = true.
Proof. cascade_cases. Qed.

Lemma first_match_Waving j :
  first_match j = Waving <->
  is_t_pose j = false /\ is_heart j = false /\ is_hands_up j = false
  /\ is_waving j = true.
Proof. cascade_cases. Qed.

Lemma first_match_FoldedHands j :
  first_match j = FoldedHands <->
  is_t_pose j = false /\ is_heart j = false /\ is_hands_up j = false
  /\ is_waving j = false /\ is_folded_hands j = true.
Proof. cascade_cases. Qed.

Lemma first_match_ArmsCrossed j :
  first_match j = ArmsCrossed <->
  is_t_pose j = false /\ is_heart j = false /\ is_hands_up j = false
  /\ is_waving j = false /\ is_folded_hands j = false
  /\ is_arms_crossed j = true.
Proof. cascade_cases. Qed.

Lemma first_match_Sitting j :
  first_match j = Sitting <->
  is_t_pose j = false /\ is_heart j = false /\ is_hands_up j = false
  /\ is_waving j = false /\ is_folded_hands j = false
  /\ is_arms_crossed j = false /\ is_bending_down j = false
  /\ is_sitting j = true.
Proof. cascade_cases. Qed.

Lemma first_match_HandsOnHips j :
  first_match j = HandsOnHips <->
  is_t_pose j = false /\ is_heart j = false /\ is_hands_up j = false
  /\ is_waving j = false /\ is_folded_hands j = false
  /\ is_arms_crossed j = false /\ is_bending_down j = false
  /\ is_sitting j = false /\ is_standing j = false
  /\ is_hands_on_hips j = true.
Proof. cascade_cases. Qed.

Lemma first_match_lower_body j :
  In (first_match j) lower_body_labels <->
  is_t_pose j = false /\ is_heart j = false /\ is_hands_up j = false
  /\ is_waving j = false /\ is_folded_hands j = false
  /\ is_arms_crossed j = false.
Proof. cascade_cases. Qed.

(** The six tests on the arms all fail exactly when T-Pose, Waving, Folded
    Hands and Arms Crossed fail. *)
Lemma arm_tests_false j :
  is_t_pose j = false /\ is_heart j = false /\ is_hands_up j = false
  /\ is_waving j = false /\ is_folded_hands j = false
  /\ is_arms_crossed j = false <->
  ~ Spec.t_pose j /\ ~ Spec.waving j /\ ~ Spec.folded_hands j
  /\ ~ Spec.arms_crossed j.
Proof.
  rewrite <- (not_true_false_iff _ _ (is_t_pose_spec j)),
    <- (not_true_false_iff _ _ (is_waving_spec j)),
    <- (not_true_false_iff _ _ (is_folded_hands_spec j)),
    <- (not_true_false_iff _ _ (is_arms_crossed_spec j)).
  pose proof (is_waving_false j). tauto.
Qed.

(** ** When each label of the arms is returned *)

(** X2. [detect_pose] returns Hands Up exactly when the T-Pose condition fails,
    both wrists are above their elbows and shoulders, and the wrists are at
    least 0.3 apart horizontally or one of them is over its own elbow. *)
Theorem hands_up_iff index landmarks j :
  read_joints index landmarks = Ok j ->
  detect_pose index landmarks = Ok (label_text HandsUp) <->
  ~ Spec.t_pose j /\ Spec.wrists_raised j
  /\ (0.3 <= Qabs (x (left_wrist j) - x (right_wrist j))
      \/ Spec.left_wrist_over_elbow j \/ Spec.right_wrist_over_elbow j).
Proof.
  intros Hj.
  rewrite (detect_pose_label _ _ _ _ Hj), first_match_HandsUp,
    (not_true_false_iff _ _ (is_t_pose_spec j)),
    (not_true_false_iff _ _ (is_heart_iff j)), is_hands_up_spec.
  unfold Spec.hands_up, Spec.wrists_close, Spec.left_wrist_over_elbow,
    Spec.right_wrist_over_elbow.
  rewrite (Qle_iff_not_lt 0.3).
  destruct (Qlt_decidable (Qabs (x (left_wrist j) - x (right_wrist j))) 0.3),
    (Qlt_decidable (Qabs (x (left_wrist j) - x (left_elbow j))) 0.1),
    (Qlt_decidable (Qabs (x (right_wrist j) - x (right_elbow j))) 0.1);
    tauto.
Qed.

Lemma hands_up_iff_witness :
  read_joints mediapipe_index (landmarks_of (pt 0 0) one_sided_joints)
  = Ok one_sided_joints
  /\ ~ Spec.t_pose one_sided_joints /\ Spec.wrists_raised one_sided_joints
  /\ (0.3 <= Qabs (x (left_wrist one_sided_joints)
                   - x (right_wrist one_sided_joints))
      \/ Spec.left_wrist_over_elbow one_sided_joints
      \/ Spec.right_wrist_over_elbow one_sided_joints).
Proof.
  split; [apply read_joints_landmarks_of|].
  apply (proj1 (hands_up_iff mediapipe_index _ _
                  (read_joints_landmarks_of (pt 0 0) one_sided_joints))).
  vm_compute. reflexivity.
Defined.

(** X3. [detect_pose] returns Waving exactly when the T-Pose condition fails, the
    Waving condition holds and the wrists are not both above their elbows
    and shoulders. *)
Theorem waving_iff index landmarks j :
  read_joints index landmarks = Ok j ->
  detect_pose index landmarks = Ok (label_text Waving) <->
  ~ Spec.t_pose j /\ Spec.waving j /\ ~ Spec.wrists_raised j.
Proof.
  intros Hj.
  rewrite (detect_pose_label _ _ _ _ Hj), first_match_Waving,
    (not_true_false_iff _ _ (is_t_pose_spec j)),
    (not_true_false_iff _ _ (is_heart_iff j)),
    (not_true_false_iff _ _ (is_hands_up_spec j)), is_waving_spec.
  unfold Spec.hands_up. tauto.
Qed.

Lemma waving_iff_witness :
  read_joints mediapipe_index (landmarks_of (pt 0 0) waving_joints)
  = Ok waving_joints
  /\ ~ Spec.t_pose waving_joints /\ Spec.waving waving_joints
  /\ ~ Spec.wrists_raised waving_joints.
Proof.
  split; [apply read_joints_landmarks_of|].
  apply (proj1 (waving_iff mediapipe_index _ _
                  (read_joints_landmarks_of (pt 0 0) waving_joints))).
  vm_compute. reflexivity.
Defined.

(** X4. [detect_pose] returns Folded Hands exactly when the T-Pose condition
    fails, the Folded-Hands condition holds and the right wrist is not above
    the right shoulder. *)
Theorem folded_hands_iff index landmarks j :
  read_joints index landmarks = Ok j ->
  detect_pose index landmarks = Ok (label_text FoldedHands) <->
  ~ Spec.t_pose j /\ Spec.folded_hands j
  /\ y (right_shoulder j) <= y (right_wrist j).
Proof.
  intros Hj.
  rewrite (detect_pose_label _ _ _ _ Hj), first_match_FoldedHands,
    (not_true_false_iff _ _ (is_t_pose_spec j)),
    (not_true_false_iff _ _ (is_heart_iff j)),
    (not_true_false_iff _ _ (is_hands_up_spec j)),
    (not_true_false_iff _ _ (is_waving_spec j)), is_folded_hands_spec.
  unfold Spec.hands_up, Spec.wrists_raised, Spec.waving, Spec.folded_hands.
  rewrite (Qle_iff_not_lt (y (right_shoulder j))).
  pose proof (Qlt_asym (y (left_shoulder j)) (y (left_wrist j))).
  tauto.
Qed.

Lemma folded_hands_iff_witness :
  read_joints mediapipe_index (landmarks_of (pt 0 0) folded_joints)
  = Ok folded_joints
  /\ ~ Spec.t_pose folded_joints /\ Spec.folded_hands folded_joints
  /\ y (right_shoulder folded_joints) <= y (right_wrist folded_joints).
Proof.
  split; [apply read_joints_landmarks_of|].
  apply (proj1 (folded_hands_iff mediapipe_index _ _
                  (read_joints_landmarks_of (pt 0 0) folded_joints))).
  vm_compute. reflexivity.
Defined.

(** X5. [detect_pose] returns Arms Crossed exactly when the T-Pose condition
    fails, the Arms-Crossed condition holds, neither wrist is above its
    shoulder, and the wrists are at least 0.05 apart horizontally or the
    left wrist is not below the left shoulder. *)
Theorem arms_crossed_iff index landmarks j :
  read_joints index landmarks = Ok j ->
  detect_pose index landmarks = Ok (label_text ArmsCrossed) <->
  ~ Spec.t_pose j /\ Spec.arms_crossed j
  /\ y (left_shoulder j) <= y (left_wrist j)
  /\ y (right_shoulder j) <= y (right_wrist j)
  /\ (0.05 <= Qabs (x (left_wrist j) - x (right_wrist j))
      \/ y (left_wrist j) <= y (left_shoulder j)).
Proof.
  intros Hj.
  rewrite (detect_pose_label _ _ _ _ Hj), first_match_ArmsCrossed,
    (not_true_false_iff _ _ (is_t_pose_spec j)),
    (not_true_false_iff _ _ (is_heart_iff j)),
    (not_true_false_iff _ _ (is_hands_up_spec j)),
    (not_true_false_iff _ _ (is_waving_spec j)),
    (not_true_false_iff _ _ (is_folded_hands_spec j)), is_arms_crossed_spec.
  unfold Spec.hands_up, Spec.wrists_raised, Spec.waving, Spec.folded_hands,
    Spec.arms_crossed.
  rewrite (Qle_iff_not_lt (y (left_shoulder j))),
    (Qle_iff_not_lt (y (right_shoulder j))), (Qle_iff_not_lt 0.05),
    (Qle_iff_not_lt (y (left_wrist j)) (y (left_shoulder j))).
  destruct (Qlt_decidable (Qabs (x (left_wrist j) - x (right_wrist j))) 0.05);
    tauto.
Qed.

Lemma arms_crossed_iff_witness :
  read_joints mediapipe_index (landmarks_of (pt 0 0) crossed_joints)
  = Ok crossed_joints
  /\ ~ Spec.t_pose crossed_joints /\ Spec.arms_crossed crossed_joints
  /\ y (left_shoulder crossed_joints) <= y (left_wrist crossed_joints)
  /\ y (right_shoulder crossed_joints) <= y (right_wrist crossed_joints)
  /\ (0.05 <= Qabs (x (left_wrist crossed_joints)
                    - x (right_wrist crossed_joints))
      \/ y (left_wrist crossed_joints) <= y (left_shoulder crossed_joints)).
Proof.
  split; [apply read_joints_landmarks_of|].
  apply (proj1 (arms_crossed_iff mediapipe_index _ _
                  (read_joints_landmarks_of (pt 0 0) crossed_joints))).
  vm_compute. reflexivity.
Defined.

(** ** When the labels of the lower body are returned *)

(** X6. [detect_pose] returns one of Bending Down, Sitting, Standing, Hands on
    Hips and the fallback exactly when the T-Pose, Waving, Folded-Hands and
    Arms-Crossed conditions all fail: Heart and Hands Up never hold without
    Waving. *)
Theorem lower_body_iff index landmarks j :
  read_joints index landmarks = Ok j ->
  (exists p, In p lower_body_labels
             /\ detect_pose index landmarks = Ok (label_text p)) <->
  ~ Spec.t_pose j /\ ~ Spec.waving j /\ ~ Spec.folded_hands j
  /\ ~ Spec.arms_crossed j.
Proof.
  intros Hj. rewrite <- arm_tests_false, <- first_match_lower_body. split.
  - intros (p & Hp & E). apply (detect_pose_label _ _ _ _ Hj) in E.
    rewrite E. exact Hp.
  - intros H. exists (first_match j). split; [exact H|].
    apply (detect_pose_label _ _ _ _ Hj). reflexivity.
Qed.

Lemma lower_body_iff_witness :
  read_joints mediapipe_index (landmarks_of (pt 0 0) sitting_joints)
  = Ok sitting_joints
  /\ ~ Spec.t_pose sitting_joints /\ ~ Spec.waving sitting_joints
  /\ ~ Spec.folded_hands sitting_joints /\ ~ Spec.arms_crossed sitting_joints.
Proof.
  split; [apply read_joints_landmarks_of|].
  apply (proj1 (lower_body_iff mediapipe_index _ _
                  (read_joints_landmarks_of (pt 0 0) sitting_joints))).
  exists Sitting. split; [simpl; tauto | vm_compute; reflexivity].
Defined.

(** X7. [detect_pose] returns Sitting exactly when the T-Pose, Waving,
    Folded-Hands and Arms-Crossed conditions fail and the Sitting test holds
    on the computed values: the Bending-Down test before it never takes a
    pose on which the Sitting test holds. *)
Theorem sitting_iff index landmarks j :
  read_joints index landmarks = Ok j ->
  detect_pose index landmarks = Ok (label_text Sitting) <->
  ~ Spec.t_pose j /\ ~ Spec.waving j /\ ~ Spec.folded_hands j
  /\ ~ Spec.arms_crossed j /\ Computed.sitting j.
Proof.
  intros Hj.
  rewrite (detect_pose_label _ _ _ _ Hj), first_match_Sitting.
  pose proof (arm_tests_false j) as A.
  rewrite (not_true_false_iff _ _ (is_bending_down_computed j)),
    is_sitting_computed.
  unfold Computed.bending_down, Computed.sitting.
  pose proof (Qlt_asym (avg_knee_y j) (avg_hip_y j)).
  tauto.
Qed.

Lemma sitting_iff_witness :
  read_joints mediapipe_index (landmarks_of (pt 0 0) sitting_joints)
  = Ok sitting_joints
  /\ ~ Spec.t_pose sitting_joints /\ ~ Spec.waving sitting_joints
  /\ ~ Spec.folded_hands sitting_joints /\ ~ Spec.arms_crossed sitting_joints
  /\ Computed.sitting sitting_joints.
Proof.
  split; [apply read_joints_landmarks_of|].
  apply (proj1 (sitting_iff mediapipe_index _ _
                  (read_joints_landmarks_of (pt 0 0) sitting_joints))).
  vm_compute. reflexivity.
Defined.

(** X8. [detect_pose] returns Hands on Hips exactly when the T-Pose, Waving,
    Folded-Hands, Arms-Crossed and Standing conditions fail and the
    Hands-on-Hips test holds on the computed values: Standing is the only
    later test that can take the label away. *)
Theorem hands_on_hips_iff index landmarks j :
  read_joints index landmarks = Ok j ->
  detect_pose index landmarks = Ok (label_text HandsOnHips) <->
  ~ Spec.t_pose j /\ ~ Spec.waving j /\ ~ Spec.folded_hands j
  /\ ~ Spec.arms_crossed j /\ ~ Spec.standing j /\ Computed.hands_on_hips j.
Proof.
  intros Hj.
  rewrite (detect_pose_label _ _ _ _ Hj), first_match_HandsOnHips.
  pose proof (arm_tests_false j) as A.
  rewrite (not_true_false_iff _ _ (is_bending_down_computed j)),
    (not_true_false_iff _ _ (is_sitting_computed j)),
    (not_true_false_iff _ _ (is_standing_spec j)), is_hands_on_hips_computed.
  unfold Computed.bending_down, Computed.sitting, Computed.hands_on_hips.
  pose proof (Qlt_asym (avg_hip_y j) (avg_knee_y j)).
  pose proof (Qle_iff_not_lt
                (Qabs (round64 (avg_shoulder_y j - avg_hip_y j)))
                (round64 0.2)).
  tauto.
Qed.

Lemma hands_on_hips_iff_witness :
  read_joints mediapipe_index (landmarks_of (pt 0 0) neutral_joints)
  = Ok neutral_joints
  /\ ~ Spec.t_pose neutral_joints /\ ~ Spec.waving neutral_joints
  /\ ~ Spec.folded_hands neutral_joints /\ ~ Spec.arms_crossed neutral_joints
  /\ ~ Spec.standing neutral_joints
  /\ Computed.hands_on_hips neutral_joints.
Proof.
  split; [apply read_joints_landmarks_of|].
  apply (proj1 (hands_on_hips_iff mediapipe_index _ _
                  (read_joints_landmarks_of (pt 0 0) neutral_joints))).
  vm_compute. reflexivity.
Defined.

(** X9. [detect_pose] returns the fallback exactly when the T-Pose, Waving,
    Folded-Hands, Arms-Crossed and Standing conditions fail, the computed
    average of the hips is not below that of the knees, and either the two
    computed averages are equal or the computed difference of the two hips
    is 0.5 or more in absolute value. *)
Theorem unknown_iff index landmarks j :
  read_joints index landmarks = Ok j ->
  detect_pose index landmarks = Ok (label_text Unknown) <->
  ~ Spec.t_pose j /\ ~ Spec.waving j /\ ~ Spec.folded_hands j
  /\ ~ Spec.arms_crossed j /\ ~ Spec.standing j
  /\ avg_knee_y j <= avg_hip_y j
  /\ (avg_hip_y j == avg_knee_y j
      \/ 0.5 <= Qabs (round64 (y (left_hip j) - y (right_hip j)))).
Proof.
  intros Hj.
  rewrite (detect_pose_label _ _ _ _ Hj), first_match_Unknown.
  pose proof (arm_tests_false j) as A.
  rewrite (not_true_false_iff _ _ (is_bending_down_computed j)),
    (not_true_false_iff _ _ (is_sitting_computed j)),
    (not_true_false_iff _ _ (is_standing_spec j)),
    (not_true_false_iff _ _ (is_hands_on_hips_computed j)).
  unfold Computed.bending_down, Computed.sitting, Computed.hands_on_hips.
  rewrite (Qeq_iff_le_not_lt (avg_hip_y j)), (Qle_iff_not_lt (avg_knee_y j)),
    (Qle_iff_not_lt 0.5).
  pose proof (Qle_iff_not_lt
                (Qabs (round64 (avg_shoulder_y j - avg_hip_y j)))
                (round64 0.2)).
  destruct (Qlt_decidable (round64 0.2)
              (Qabs (round64 (avg_shoulder_y j - avg_hip_y j)))),
    (Qlt_decidable (avg_knee_y j) (avg_hip_y j));
    tauto.
Qed.

Lemma unknown_iff_witness :
  read_joints mediapipe_index (landmarks_of (pt 0 0) fallback_joints)
  = Ok fallback_joints
  /\ ~ Spec.t_pose fallback_joints /\ ~ Spec.waving fallback_joints
  /\ ~ Spec.folded_hands fallback_joints /\ ~ Spec.arms_crossed fallback_joints
  /\ ~ Spec.standing fallback_joints
  /\ avg_knee_y fallback_joints <= avg_hip_y fallback_joints
  /\ (avg_hip_y fallback_joints == avg_knee_y fallback_joints
      \/ 0.5 <= Qabs (round64 (y (left_hip fallback_joints)
                               - y (right_hip fallback_joints)))).
Proof.
  split; [apply read_joints_landmarks_of|].
  apply (proj1 (unknown_iff mediapipe_index _ _
                  (read_joints_landmarks_of (pt 0 0) fallback_joints))).
  vm_compute. reflexivity.
Defined.

(** ** Every label is returned *)

(** X10. No branch of the cascade is dead: for each of the eleven labels there is
    a landmark list with all its coordinates inside the image that
    [detect_pose] classifies with that label. *)
Theorem every_label_returned p :
  exists landmarks,
    Forall in_unit landmarks
    /\ detect_pose mediapipe_index landmarks = Ok (label_text p).
Proof.
  exists (landmarks_of (pt 0 0) (example_of p)). split.
  - apply Forall_forall. intros l Hl. apply in_unitb_spec.
    revert l Hl. apply forallb_forall. destruct p; vm_compute; reflexivity.
  - destruct p; vm_compute; reflexivity.
Qed.


(** * Further properties of the frame loop *)

(** ** The timer *)

(** X11. A call of [update_frame] registers the next call exactly when the
    read succeeded and, if there is a detection, [draw_landmarks] found
    every connected landmark in it and [detect_pose] returned a label; a
    call that returns registers one timer of 10 ms after a successful read
    and none after a failed one. *)
Theorem update_frame_timer index t :
  (reschedules (update_frame index t) = true <->
   ret t = true
   /\ forall landmarks,
       pose_landmarks t = Some landmarks ->
       (connected_landmarks <= List.length landmarks)%nat
       /\ exists pose_type, detect_pose index landmarks = Ok pose_type)
  /\ forall events, update_frame index t = Ok events ->
                    filter is_after events = if ret t then [After 10] else [].
Proof.
  unfold update_frame, draw_landmarks.
  destruct (ret t); cbn [negb].
  - destruct (pose_landmarks t) as [landmarks|].
    + destruct (connected_landmarks <=? List.length landmarks)%nat eqn:D;
        cbn [bind];
        [destruct (detect_pose index landmarks) as [s| |] eqn:E; cbn [bind]|].
      * split.
        -- unfold reschedules. rewrite existsb_app. split.
           ++ intros _. split; [reflexivity|].
              intros l Hl. inversion Hl; subst l. split.
              ** apply Nat.leb_le, D.
              ** exists s. exact E.
           ++ intros _. apply orb_true_r.
        -- intros events H. inversion H. reflexivity.
      * split; [|discriminate].
        split; [discriminate|]. intros [_ H].
        destruct (H landmarks eq_refl) as [_ [s Hs]].
        rewrite E in Hs. discriminate Hs.
      * split; [|discriminate].
        split; [discriminate|]. intros [_ H].
        destruct (H landmarks eq_refl) as [_ [s Hs]].
        rewrite E in Hs. discriminate Hs.
      * split; [|discriminate].
        split; [discriminate|]. intros [_ H].
        destruct (H landmarks eq_refl) as [L _].
        apply Nat.leb_le in L. rewrite L in D. discriminate D.
    + split.
      * split; [|reflexivity]. intros _. split; [reflexivity | discriminate].
      * intros events H. inversion H. reflexivity.
  - split.
    + split; [discriminate | intros [H _]; discriminate H].
    + intros events H. inversion H. reflexivity.
Qed.

Lemma update_frame_timer_witness :
  update_frame mediapipe_index good_tick
  = Ok (DrawLandmarks :: outlined_text "T-Pose" ++ [Configure; After 10])
  /\ filter is_after
       (DrawLandmarks :: outlined_text "T-Pose" ++ [Configure; After 10])
     = [After 10]
  /\ update_frame mediapipe_index short_tick = ValueError.
Proof.
  assert (E : update_frame mediapipe_index good_tick
              = Ok (DrawLandmarks :: outlined_text "T-Pose"
                      ++ [Configure; After 10])) by reflexivity.
  split; [exact E|]. split; [|reflexivity].
  exact (proj2 (update_frame_timer mediapipe_index good_tick) _ E).
Defined.

(** ** The overlay *)

(** X12. Every text a call of [update_frame] draws on the frame is the label
    [detect_pose] returns for the detection of that same call: nothing is
    drawn after a failed read or without a detection. *)
Theorem update_frame_draws_current_label
  index t events text org color thickness :
  update_frame index t = Ok events ->
  In (PutText text org color thickness) events ->
  ret t = true
  /\ exists landmarks,
      pose_landmarks t = Some landmarks
      /\ detect_pose index landmarks = Ok text.
Proof.
  unfold update_frame, draw_landmarks.
  destruct (ret t); cbn [negb].
  - destruct (pose_landmarks t) as [landmarks|].
    + destruct (connected_landmarks <=? List.length landmarks)%nat;
        cbn [bind]; [|discriminate].
      destruct (detect_pose index landmarks) as [s| |] eqn:E; cbn [bind];
        try discriminate.
      intros H I. inversion H; subst events. split; [reflexivity|].
      exists landmarks. split; [reflexivity|].
      simpl in I.
      repeat match type of I with
             | _ \/ _ => destruct I as [I|I]
             end;
        try discriminate I; try contradiction;
        inversion I; congruence.
    + intros H I. inversion H; subst events. simpl in I.
      destruct I as [I|[I|[]]]; discriminate I.
  - intros H I. inversion H; subst events. contradiction.
Qed.

Lemma update_frame_draws_current_label_witness :
  update_frame mediapipe_index good_tick
  = Ok (DrawLandmarks :: outlined_text "T-Pose" ++ [Configure; After 10])
  /\ In (PutText "T-Pose" (10, 30)%Z White 2%Z)
        (DrawLandmarks :: outlined_text "T-Pose" ++ [Configure; After 10])
  /\ ret good_tick = true
  /\ exists landmarks,
      pose_landmarks good_tick = Some landmarks
      /\ detect_pose mediapipe_index landmarks = Ok "T-Pose"%string.
Proof.
  assert (E : update_frame mediapipe_index good_tick
              = Ok (DrawLandmarks :: outlined_text "T-Pose"
                      ++ [Configure; After 10])) by reflexivity.
  assert (I : In (PutText "T-Pose" (10, 30)%Z White 2%Z)
                (DrawLandmarks :: outlined_text "T-Pose"
                   ++ [Configure; After 10]))
    by (simpl; tauto).
  split; [exact E|]. split; [exact I|].
  exact (update_frame_draws_current_label mediapipe_index good_tick _ _ _ _ _
           E I).
Defined.
